(** * Advance-WebCrawler: a shallow embedding of [crawler.py]

    The development follows the source file top to bottom:

    - [PyStr]: the Python string operations the crawler calls
      ([str.strip], [str.replace], [str.join], truthiness);
    - [Re]: the three regular-expression substitutions of the source,
      each written out as the scan [re.sub] performs for that pattern;
    - [Bs4]: the parsed document ([BeautifulSoup]) as a tree, with
      [find] and [get_text];
    - [Platform], [World], [M], [Os]: what lies outside the program, the
      state it changes (files, directories, standard output, requests
      issued), and a small state-and-exception monad over it;
    - section [Crawler]: the functions of [crawler.py], under their
      names;
    - [Orchestrator]: the dispatch loop of [crawl_websites] as a
      transition system over the dispatcher and its worker threads;
    - [Demo]: a concrete platform with a few pages, for the scenarios;
    - the properties, in the order of the definitions, and the scenarios.

    Strings are [string] (characters below 256), integers are [Z] or
    [nat], Python dictionaries are [gmap].  File input and output is
    taken to succeed; paths are POSIX paths. *)

From Stdlib Require Import Ascii String.
From stdpp Require Import base option list gmap strings fin_maps.

(** ** Python strings *)

Module PyStr.

Definition LF : ascii := "010"%char.
Definition CR : ascii := "013"%char.
Definition DQUOTE : ascii := "034"%char.

(** [bool(s)] for a [str]: the empty string is falsy. *)
Definition truthy (s : string) : bool :=
  match s with
  | EmptyString => false
  | String _ _ => true
  end.

(** [bool(x)] for a value that is [None] or a [str]. *)
Definition truthy_opt (x : option string) : bool :=
  match x with
  | None => false
  | Some s => truthy s
  end.

(** [c.isspace()] for the characters below 256: TAB, LF, VT, FF, CR,
    FS, GS, RS, US, SPACE, NEL and NBSP. *)
Definition isspace (c : ascii) : bool :=
  let n := nat_of_ascii c in
  (9 <=? n) && (n <=? 13) || (28 <=? n) && (n <=? 32) || (n =? 133) || (n =? 160).

Fixpoint lstrip (s : string) : string :=
  match s with
  | EmptyString => EmptyString
  | String c r => if isspace c then lstrip r else s
  end.

Fixpoint rstrip (s : string) : string :=
  match s with
  | EmptyString => EmptyString
  | String c r =>
      match rstrip r with
      | EmptyString => if isspace c then EmptyString else String c EmptyString
      | r' => String c r'
      end
  end.

(** [s.strip()] *)
Definition strip (s : string) : string := rstrip (lstrip s).

(** [s.startswith(p)] *)
Fixpoint startswith (p s : string) : bool :=
  match p, s with
  | EmptyString, _ => true
  | String _ _, EmptyString => false
  | String a p', String b s' => if Ascii.eqb a b then startswith p' s' else false
  end.

(** [s[n:]] *)
Fixpoint drop (n : nat) (s : string) : string :=
  match n, s with
  | O, _ => s
  | S _, EmptyString => EmptyString
  | S k, String _ r => drop k r
  end.

(** [s.find(needle)], [None] for Python's [-1]. *)
Fixpoint find (needle s : string) : option nat :=
  if startswith needle s then Some O
  else match s with
       | EmptyString => None
       | String _ r => S <$> find needle r
       end.

(** [s.replace('', new)]: [new] before every character and at the end. *)
Fixpoint interleave (new s : string) : string :=
  match s with
  | EmptyString => new
  | String c r => new +:+ String c (interleave new r)
  end.

(** The left-to-right scan of [s.replace(old, new)] for a non-empty
    [old]; [skip] counts the characters of the current occurrence that
    are still to be passed over. *)
Fixpoint replace_scan (old new : string) (skip : nat) (s : string) : string :=
  match s with
  | EmptyString => EmptyString
  | String c r =>
      match skip with
      | S k => replace_scan old new k r
      | O =>
          if startswith old s
          then new +:+ replace_scan old new (String.length old - 1) r
          else String c (replace_scan old new O r)
      end
  end.

(** [s.replace(old, new)] *)
Definition replace (old new s : string) : string :=
  match old with
  | EmptyString => interleave new s
  | String _ _ => replace_scan old new O s
  end.

(** [sep.join(parts)] *)
Fixpoint join (sep : string) (parts : list string) : string :=
  match parts with
  | [] => EmptyString
  | [p] => p
  | p :: rest => p +:+ sep +:+ join sep rest
  end.

(** [c in s] for a character. *)
Fixpoint mem (c : ascii) (s : string) : bool :=
  match s with
  | EmptyString => false
  | String a r => Ascii.eqb c a || mem c r
  end.

Fixpoint filter (keep : ascii -> bool) (s : string) : string :=
  match s with
  | EmptyString => EmptyString
  | String c r => if keep c then String c (filter keep r) else filter keep r
  end.

(** [s[-1]] when [s] is not empty. *)
Fixpoint last (s : string) : option ascii :=
  match s with
  | EmptyString => None
  | String c EmptyString => Some c
  | String _ r => last r
  end.

End PyStr.

(** ** The regular expressions of the source *)

Module Re.
Import PyStr.

(** The character class of [invalid_chars] on line 24: a backslash and a
    slash, then colon, star, question mark, double quote, angle brackets
    and bar.  Inside a class a backslash before a slash is an escaped
    slash, so the class holds eight characters: the slash and the seven
    that follow it.  The backslash only escapes. *)
Definition invalid_chars : string :=
  "/:*?" +:+ String DQUOTE "<>|".

(** [re.sub(invalid_chars, '', s)]: every character of the class is
    removed. *)
Definition sub_invalid_chars (s : string) : string :=
  filter (fun c => negb (mem c invalid_chars)) s.

(** [re.sub(r'<script.*?</script>', '', s, flags=re.DOTALL)].  At each
    position where ["<script"] starts, the lazy [.*?] (which crosses
    line ends under DOTALL) runs to the first ["</script>"] behind it;
    the whole match is dropped and the scan goes on behind it.  Where no
    closing tag follows, the character is kept. *)
Fixpoint sub_script_scan (skip : nat) (s : string) : string :=
  match s with
  | EmptyString => EmptyString
  | String c r =>
      match skip with
      | S k => sub_script_scan k r
      | O =>
          if startswith "<script" s then
            match find "</script>" (drop 7 s) with
            | Some n => sub_script_scan (6 + n + 9) r
            | None => String c (sub_script_scan O r)
            end
          else String c (sub_script_scan O r)
      end
  end.

Definition sub_script (s : string) : string := sub_script_scan O s.

(** Offset of the first [>] reachable by [.*?] without DOTALL: the dot
    does not match a line feed. *)
Fixpoint find_gt (s : string) : option nat :=
  match s with
  | EmptyString => None
  | String c r =>
      if Ascii.eqb c ">" then Some O
      else if Ascii.eqb c LF then None
      else S <$> find_gt r
  end.

(** [re.sub(r'<.*?>', '', s)] *)
Fixpoint sub_tag_scan (skip : nat) (s : string) : string :=
  match s with
  | EmptyString => EmptyString
  | String c r =>
      match skip with
      | S k => sub_tag_scan k r
      | O =>
          if Ascii.eqb c "<" then
            match find_gt r with
            | Some n => sub_tag_scan (S n) r
            | None => String c (sub_tag_scan O r)
            end
          else String c (sub_tag_scan O r)
      end
  end.

Definition sub_tag (s : string) : string := sub_tag_scan O s.

End Re.

(** ** Exceptions and results *)

(** The Python exceptions that can leave the modelled code: [KeyError]
    from [tag[key]] and the selector engine's [SelectorSyntaxError].
    The exceptions of [requests] are part of [http_result] below, since
    the source catches them where they occur. *)
Inductive exn : Type :=
| KeyError (key : string)
| SelectorSyntaxError (selector : string).

Inductive result (A : Type) : Type :=
| Ret (a : A)
| Raise (e : exn).

Arguments Ret {A} a.
Arguments Raise {A} e.

Definition result_bind {A B : Type} (r : result A) (k : A -> result B) : result B :=
  match r with
  | Ret a => k a
  | Raise e => Raise e
  end.

(** ** The parsed document *)

Module Bs4.

(** What [BeautifulSoup(markup, 'html.parser')] hands back: text nodes
    and tags with their attribute dictionary and children.  The document
    itself is the tag ["[document]"]. *)
#[warnings="-register-all"] Inductive node : Type :=
| NavigableString (text : string)
| Tag (name : string) (attrs : gmap string string) (contents : list node).

(** [tag.descendants]: the nodes below a tag in document order. *)
Fixpoint descendants (n : node) : list node :=
  match n with
  | NavigableString _ => []
  | Tag _ _ cs => flat_map (fun c => c :: descendants c) cs
  end.

Definition string_of (n : node) : option string :=
  match n with
  | NavigableString s => Some s
  | Tag _ _ _ => None
  end.

(** [node.get_text()]: the text nodes below it, concatenated. *)
Definition get_text (n : node) : string :=
  match n with
  | NavigableString s => s
  | Tag _ _ _ => String.concat EmptyString (omap string_of (descendants n))
  end.

(** The test [soup.find(name, attrs)] applies to a node: a tag of that
    name whose attributes hold each given value. *)
Definition matches (name : string) (attrs : list (string * string)) (n : node) : bool :=
  match n with
  | NavigableString _ => false
  | Tag nm a _ =>
      String.eqb nm name
      && forallb (fun kv => bool_decide (a !! kv.1 = Some kv.2)) attrs
  end.

(** [soup.find(name, attrs)]: the first match in document order, or
    [None]. *)
Definition find (name : string) (attrs : list (string * string)) (soup : node) : option node :=
  head (List.filter (matches name attrs) (descendants soup)).

(** [tag[key]]: the attribute's value; [KeyError] when the tag has no
    such attribute. *)
Definition getitem (n : node) (key : string) : result string :=
  match n with
  | NavigableString _ => Raise (KeyError key)
  | Tag _ a _ =>
      match a !! key with
      | Some v => Ret v
      | None => Raise (KeyError key)
      end
  end.

End Bs4.

(** ** The world the crawler runs in *)

(** What [requests.get] answers. *)
Record Response : Type := {
  status_code : Z;
  (** [response.url], the address the answer came from once redirects
      were followed; the source never reads it. *)
  response_url : string;
  (** [response.content], the bytes of the body. *)
  content : string;
  (** [BeautifulSoup(response.content, 'html.parser')]: the parser is the
      library's, its tree comes with the answer. *)
  soup_of_content : Bs4.node;
}.

(** The outcome of one call of [requests.get]: an answer, or one of the
    exceptions the call raises. *)
Inductive http_result : Type :=
| HttpOk (response : Response)
| HttpTimeout (detail : string)             (* requests.Timeout *)
| HttpRequestException (detail : string).   (* any other requests.RequestException *)

(** What lies outside the program: where the script is installed, the
    clock, the network, the CSS selector engine behind [soup.select],
    [urllib.parse.urljoin], and what the dispatcher gets from
    [requests.utils.urlparse(url).hostname], [get_delay] and
    [get_body_class] (lines 104-124 and 217-221).  The last two read
    [config/<hostname>.txt]; the text format of that file is no part of
    this development, which takes the delay and the rule of a host as
    given. *)
Class Platform : Type := {
  script_path : string;
  strftime_now : string;   (* datetime.now().strftime('%Y-%m-%d %H:%M:%S') *)
  strftime_ymd : string;   (* datetime.now().strftime('%Y-%m-%d') *)
  http : string -> http_result;
  soup_select : string -> Bs4.node -> result (list Bs4.node);
  urljoin : string -> string -> string;
  urlparse_hostname : string -> string;
  get_delay : string -> nat;
  get_body_class : string -> string;
}.

Record World : Type := {
  files : gmap string string;   (* regular files: path to contents *)
  dirs : gset string;           (* directories *)
  stdout : list string;         (* lines printed, oldest first *)
  requests : list string;       (* addresses requests.get was called with, oldest first *)
}.

(** State and exceptions: a computation runs in a world and returns or
    raises, leaving the world as changed so far. *)
Definition M (A : Type) : Type := World -> result A * World.

Definition ret {A : Type} (a : A) : M A := fun w => (Ret a, w).

Definition raise {A : Type} (e : exn) : M A := fun w => (Raise e, w).

Definition bind {A B : Type} (c : M A) (k : A -> M B) : M B :=
  fun w =>
    match c w with
    | (Ret a, w') => k a w'
    | (Raise e, w') => (Raise e, w')
    end.

Definition lift {A : Type} (r : result A) : M A := fun w => (r, w).

Notation "x <~ c ;; k" := (bind c (fun x => k))
  (at level 20, c at level 99, k at level 200, format "x  <~  c  ;;  '/' k").
Notation "c ;;; k" := (bind c (fun _ => k))
  (at level 20, k at level 200, format "c  ;;;  '/' k").

Module Os.

Definition NL : string := String PyStr.LF EmptyString.

Fixpoint endswith_slash (s : string) : bool :=
  match s with
  | EmptyString => false
  | String c EmptyString => Ascii.eqb c "/"
  | String _ r => endswith_slash r
  end.

(** One step of [posixpath.join]. *)
Definition join2 (path b : string) : string :=
  if PyStr.startswith "/" b then b
  else if negb (PyStr.truthy path) || endswith_slash path then path +:+ b
  else path +:+ "/" +:+ b.

(** [os.path.join(a, *p)] *)
Definition path_join (a : string) (p : list string) : string := foldl join2 a p.

(** [os.path.exists(path)] *)
Definition path_exists (path : string) : M bool :=
  fun w => (Ret (bool_decide (is_Some (files w !! path)) || bool_decide (path ∈ dirs w)), w).

(** [os.path.getsize(path)] of a regular file. *)
Definition path_getsize (path : string) : M nat :=
  fun w => (Ret (String.length (default EmptyString (files w !! path))), w).

(** [os.makedirs(path)] *)
Definition makedirs (path : string) : M unit :=
  fun w => (Ret tt, {| files := files w; dirs := {[ path ]} ∪ dirs w;
                       stdout := stdout w; requests := requests w |}).

(** [with open(path, 'w') as f: f.write(data)] (also mode ['wb']). *)
Definition write_file (path data : string) : M unit :=
  fun w => (Ret tt, {| files := <[ path := data ]> (files w); dirs := dirs w;
                       stdout := stdout w; requests := requests w |}).

(** [with open(path, 'a') as f: f.write(data)] *)
Definition append_file (path data : string) : M unit :=
  fun w => (Ret tt, {| files := <[ path := default EmptyString (files w !! path) +:+ data ]> (files w);
                       dirs := dirs w; stdout := stdout w; requests := requests w |}).

(** [print(line)] *)
Definition print (line : string) : M unit :=
  fun w => (Ret tt, {| files := files w; dirs := dirs w;
                       stdout := stdout w ++ [line]; requests := requests w |}).

End Os.

(** [requests.get(url, ...)]: the call is recorded and the network's
    answer returned; the exceptions of [requests] are the other two
    constructors of [http_result]. *)
Definition requests_get {pf : Platform} (url : string) : M http_result :=
  fun w => (Ret (http url), {| files := files w; dirs := dirs w;
                               stdout := stdout w; requests := requests w ++ [url] |}).

(** ** The functions of [crawler.py] *)

Section Crawler.
Context {pf : Platform}.

(** [clean_filename], lines 22-26. *)
Definition clean_filename (title : string) : string :=
  let cleaned_title := Re.sub_invalid_chars title in
  cleaned_title.

(** [apply_title_transform], lines 28-30. *)
Definition apply_title_transform (title title_search title_replace : string) : string :=
  PyStr.replace title_search title_replace title.

(** [first_paragraph.get_text() if first_paragraph else 'No Body'],
    lines 246-247. *)
Definition first_paragraph_text (soup : Bs4.node) : string :=
  match Bs4.find "p" [] soup with
  | Some first_paragraph => Bs4.get_text first_paragraph
  | None => "No Body"
  end.

(** [extract_default_body_content], lines 240-249. *)
Definition extract_default_body_content (soup : Bs4.node) : result string :=
  let meta_description := Bs4.find "meta" [("name", "description")] soup in
  result_bind
    (match meta_description with
     | Some tag => result_bind (Bs4.getitem tag "content") (fun c => Ret (Some c))
     | None => Ret None
     end)
    (fun body_content =>
       match body_content with
       | Some text => if PyStr.truthy text then Ret text else Ret (first_paragraph_text soup)
       | None => Ret (first_paragraph_text soup)
       end).

(** The body taken with the configured rule, lines 41-51: the texts of
    the selected elements joined by a space, or the empty string when no
    rule is configured or nothing is selected. *)
Definition rule_body_text (soup : Bs4.node) (body_class_rule : string) : result string :=
  if PyStr.truthy body_class_rule then
    result_bind (soup_select body_class_rule soup)
      (fun body_content =>
         match body_content with
         | [] => Ret EmptyString
         | _ :: _ => Ret (PyStr.join " " (map Bs4.get_text body_content))
         end)
  else Ret EmptyString.

(** Lines 57-61: script blocks and tags are cut out of the text, which is
    then stripped. *)
Definition clean_body_text (body_text : string) : string :=
  let body_text := Re.sub_script body_text in
  let body_text := Re.sub_tag body_text in
  PyStr.strip body_text.

(** The extraction from a parsed page, lines 39-67 of
    [get_page_content_with_rule]. *)
Definition extract_page (soup : Bs4.node) (body_class_rule : string)
  : result (string * string * option string) :=
  let title :=
    match Bs4.find "h1" [] soup with
    | Some h1 => Bs4.get_text h1
    | None => "No Title"
    end in
  result_bind (rule_body_text soup body_class_rule) (fun body_text =>
  result_bind
    (if negb (PyStr.truthy body_text)
     then extract_default_body_content soup
     else Ret body_text) (fun body_text =>
  let body_text := clean_body_text body_text in
  let og_image_tag := Bs4.find "meta" [("property", "og:image")] soup in
  result_bind
    (match og_image_tag with
     | Some tag => result_bind (Bs4.getitem tag "content") (fun c => Ret (Some c))
     | None => Ret None
     end) (fun og_image_url =>
  Ret (title, body_text, og_image_url)))).

(** [get_page_content_with_rule], lines 32-75.  [hostname] is a parameter
    of the source function that its body never reads. *)
Definition get_page_content_with_rule (url hostname body_class_rule : string)
  : M (option string * option string * option string) :=
  answer <~ requests_get url ;;
  match answer with
  | HttpOk response =>
      if (status_code response =? 200)%Z then
        r <~ lift (extract_page (soup_of_content response) body_class_rule) ;;
        ret (Some r.1.1, Some r.1.2, r.2)
      else ret (None, None, None)
  | HttpTimeout _ =>
      Os.print ("Timeout error for: " +:+ url) ;;;
      ret (None, None, None)
  | HttpRequestException e =>
      Os.print ("Error for " +:+ url +:+ ": " +:+ e) ;;;
      ret (None, None, None)
  end.

(** [os.path.join(script_path(), 'data', name)] *)
Definition data_path (name : string) : string :=
  Os.path_join script_path ["data"; name].

(** [save_image], lines 77-97. *)
Definition save_image (image_url filename : string) : M unit :=
  let png := data_path (filename +:+ ".png") in
  present <~ Os.path_exists png ;;
  nonempty <~ (if present
               then size <~ Os.path_getsize png ;; ret (Nat.ltb 0 size)
               else ret false) ;;
  if nonempty then
    Os.print ("Image file already exists for " +:+ filename +:+ ". Skipping download.")
  else
    answer <~ requests_get image_url ;;
    match answer with
    | HttpOk response =>
        if (status_code response =? 200)%Z then
          Os.write_file png (content response) ;;;
          Os.write_file (data_path (filename +:+ "-image.txt")) image_url
        else ret tt
    | HttpTimeout e
    | HttpRequestException e =>
        Os.print ("Error saving image for " +:+ filename +:+ ": " +:+ e)
    end.

(** [save_url], lines 99-102. *)
Definition save_url (url filename : string) : M unit :=
  Os.write_file (data_path (filename +:+ "-url.txt")) url.

(** One field of a row written by [csv.writer] (minimal quoting): a field
    holding the delimiter, a quote or a line end is quoted, its quotes
    doubled. *)
Definition csv_field (s : string) : string :=
  let q := String PyStr.DQUOTE EmptyString in
  if PyStr.mem "," s || PyStr.mem PyStr.DQUOTE s || PyStr.mem PyStr.CR s || PyStr.mem PyStr.LF s
  then q +:+ PyStr.replace q (q +:+ q) s +:+ q
  else s.

(** [csv_writer.writerow(row)] as text, ended by CR LF. *)
Definition csv_row (row : list string) : string :=
  PyStr.join "," (map csv_field row) +:+ String PyStr.CR Os.NL.

(** Lines 129-130, 143-144, 152-153: the log directory is made on first
    use. *)
Definition ensure_directory (log_directory : string) : M unit :=
  present <~ Os.path_exists log_directory ;;
  if negb present then Os.makedirs log_directory else ret tt.

(** [log_successful_crawl], lines 127-139. *)
Definition log_successful_crawl (url log_directory : string) : M unit :=
  ensure_directory log_directory ;;;
  let timestamp := strftime_now in
  let log_data := [url; "200"; timestamp] in
  let log_file_path := Os.path_join log_directory ["successes.csv"] in
  Os.append_file log_file_path (csv_row log_data).

(** [log_failed_url], lines 141-148. *)
Definition log_failed_url (url log_directory : string) : M unit :=
  ensure_directory log_directory ;;;
  Os.append_file (Os.path_join log_directory ["fails.txt"]) (url +:+ Os.NL).

(** The branch of [crawl_page_with_rule] taken when title and body are
    both truthy, lines 168-193. *)
Definition persist_page (url log_directory title_search title_replace : string)
    (title body : string) (og_image_url : option string) : M unit :=
  let title := apply_title_transform title title_search title_replace in
  let title := PyStr.strip title in
  let filename := clean_filename title in
  Os.write_file (data_path (filename +:+ ".txt"))
    (title +:+ Os.NL +:+ "---" +:+ Os.NL +:+ body +:+ Os.NL) ;;;
  save_url url filename ;;;
  Os.print ("Successfully crawled: " +:+ url +:+ " -> data/" +:+ filename +:+ ".txt") ;;;
  (if PyStr.truthy_opt og_image_url then
     let image := urljoin url (default EmptyString og_image_url) in
     save_image image filename ;;;
     Os.print ("Saved og:image: " +:+ image +:+ " -> data/" +:+ filename +:+ ".png")
   else
     Os.print ("No og:image found for: " +:+ url)) ;;;
  log_successful_crawl url log_directory.

(** The other branch, lines 195-197. *)
Definition report_failure (url log_directory : string) : M unit :=
  Os.print ("Failed to crawl: " +:+ url) ;;;
  log_failed_url url log_directory.

(** [crawl_page_with_rule], lines 164-197.  The call on line 165 passes
    [title_search] where [get_page_content_with_rule] names its parameter
    [hostname]. *)
Definition crawl_page_with_rule
    (url log_directory title_search title_replace body_class_rule : string) : M unit :=
  r <~ get_page_content_with_rule url title_search body_class_rule ;;
  let '(title, body, og_image_url) := r in
  if PyStr.truthy_opt title && PyStr.truthy_opt body then
    persist_page url log_directory title_search title_replace
      (default EmptyString title) (default EmptyString body) og_image_url
  else
    report_failure url log_directory.

End Crawler.

(** ** The dispatch loop of [crawl_websites] *)

Module Orchestrator.

(** A started [threading.Thread]: the arguments of its target
    [crawl_page_with_rule] that differ between threads, and whether the
    target has run to its end. *)
Record thread : Type := {
  target_url : string;
  target_rule : string;
  finished : bool;
}.

(** Where the dispatcher stands in lines 215-237. *)
Inductive pc : Type :=
| AtAcquire                (* line 224, for the first pending url *)
| AtStart (url : string)   (* lines 227-229 *)
| AtSleep (url : string)   (* line 232 *)
| AtRelease                (* line 233 *)
| AtJoin (i : nat)         (* lines 236-237, threads before i joined *)
| Returned.

Record state : Type := {
  at_pc : pc;
  pending : list string;   (* the urls the for loop has not reached *)
  semaphore : nat;         (* the counter of the Semaphore *)
  threads : list thread;   (* the list [threads], in start order *)
  world : World;
}.

Inductive event : Type :=
| EvAcquire
| EvStart (url : string)
| EvSleep (delay : nat)
| EvRelease
| EvJoin (i : nat)
| EvReturn
| EvFinish (i : nat).

(** Who moves next: the scheduler's choice. *)
Inductive actor : Type :=
| Dispatcher
| Worker (i : nat).

Section Run.
Context {pf : Platform}.
Variables (max_threads : nat) (title_search title_replace : string).

(** Line 208. *)
Definition log_directory : string :=
  Os.path_join script_path ["results"; strftime_ymd].

(** Line 215: the next iteration of the for loop, or the joins once
    the urls are exhausted. *)
Definition loop_head (urls : list string) : pc :=
  match urls with
  | [] => AtJoin 0
  | _ :: _ => AtAcquire
  end.

(** Lines 201-213: the state in which the for loop is entered.
    [threading.Semaphore] refuses a negative value, so [max_threads] is a
    [nat]. *)
Definition initial (urls : list string) (w : World) : state :=
  {| at_pc := loop_head urls;
     pending := urls;
     semaphore := max_threads;
     threads := [];
     world := (ensure_directory (Os.path_join script_path ["data"]) w).2 |}.

Definition finish (t : thread) : thread :=
  {| target_url := target_url t; target_rule := target_rule t; finished := true |}.

(** Lines 217, 221 and 227: the thread made for [url], with the rule of
    its host. *)
Definition new_thread (url : string) : thread :=
  let hostname := urlparse_hostname url in
  let body_class_rule := get_body_class hostname in
  {| target_url := url; target_rule := body_class_rule; finished := false |}.

(** One step of the dispatcher; [None] when it is blocked (on the
    semaphore or on a join) or has returned. *)
Definition dispatcher_step (s : state) : option (event * state) :=
  match at_pc s with
  | AtAcquire =>
      match pending s, semaphore s with
      | url :: rest, S n =>
          Some (EvAcquire,
                {| at_pc := AtStart url; pending := rest; semaphore := n;
                   threads := threads s; world := world s |})
      | _, _ => None
      end
  | AtStart url =>
      Some (EvStart url,
            {| at_pc := AtSleep url; pending := pending s; semaphore := semaphore s;
               threads := threads s ++ [new_thread url]; world := world s |})
  | AtSleep url =>
      let delay := get_delay (urlparse_hostname url) in
      Some (EvSleep delay,
            {| at_pc := AtRelease; pending := pending s; semaphore := semaphore s;
               threads := threads s; world := world s |})
  | AtRelease =>
      Some (EvRelease,
            {| at_pc := loop_head (pending s); pending := pending s;
               semaphore := S (semaphore s);
               threads := threads s; world := world s |})
  | AtJoin i =>
      match threads s !! i with
      | Some t =>
          if finished t then
            Some (EvJoin i,
                  {| at_pc := AtJoin (S i); pending := pending s; semaphore := semaphore s;
                     threads := threads s; world := world s |})
          else None
      | None =>
          Some (EvReturn,
                {| at_pc := Returned; pending := pending s; semaphore := semaphore s;
                   threads := threads s; world := world s |})
      end
  | Returned => None
  end.

(** Thread [i] runs its target to the end.  The target's pipeline is
    taken as one step; what it returns or raises stays in the thread. *)
Definition worker_step (i : nat) (s : state) : option (event * state) :=
  match threads s !! i with
  | Some t =>
      if finished t then None
      else
        let outcome :=
          crawl_page_with_rule (target_url t) log_directory
            title_search title_replace (target_rule t) (world s) in
        Some (EvFinish i,
              {| at_pc := at_pc s; pending := pending s; semaphore := semaphore s;
                 threads := <[ i := finish t ]> (threads s); world := outcome.2 |})
  | None => None
  end.

Definition step (a : actor) (s : state) : option (event * state) :=
  match a with
  | Dispatcher => dispatcher_step s
  | Worker i => worker_step i s
  end.

(** An execution under a schedule: the events in order and the state
    reached; [None] when the schedule picks an actor that cannot move. *)
Fixpoint run (schedule : list actor) (s : state) : option (list event * state) :=
  match schedule with
  | [] => Some ([], s)
  | a :: rest =>
      match step a s with
      | Some (e, s') =>
          match run rest s' with
          | Some (tr, s'') => Some (e :: tr, s'')
          | None => None
          end
      | None => None
      end
  end.

(** The threads whose target is still running. *)
Definition running (s : state) : nat :=
  length (List.filter (fun t => negb (finished t)) (threads s)).

Definition is_finish (e : event) : bool :=
  match e with
  | EvFinish _ => true
  | _ => false
  end.

(** The dispatcher's own events of a trace. *)
Definition dispatcher_events (tr : list event) : list event :=
  List.filter (fun e => negb (is_finish e)) tr.

(** The events of one iteration of the for loop. *)
Definition iteration (url : string) : list event :=
  [EvAcquire; EvStart url; EvSleep (get_delay (urlparse_hostname url)); EvRelease].

(** The dispatcher's events of a complete run over [urls]. *)
Definition program_order (urls : list string) : list event :=
  flat_map iteration urls ++ map EvJoin (seq 0 (length urls)) ++ [EvReturn].

(** The dispatcher's events still to come from a state, for [n] urls
    in all. *)
Definition remaining (n : nat) (s : state) : list event :=
  let tail := flat_map iteration (pending s) ++ map EvJoin (seq 0 n) ++ [EvReturn] in
  match at_pc s with
  | AtAcquire => tail
  | AtStart url => EvStart url :: EvSleep (get_delay (urlparse_hostname url)) :: EvRelease :: tail
  | AtSleep url => EvSleep (get_delay (urlparse_hostname url)) :: EvRelease :: tail
  | AtRelease => EvRelease :: tail
  | AtJoin i => map EvJoin (seq i (n - i)) ++ [EvReturn]
  | Returned => []
  end.

(** The url the dispatcher has taken from the list and not yet started. *)
Definition in_hand (s : state) : list string :=
  match at_pc s with
  | AtStart url => [url]
  | _ => []
  end.

(** What holds of every state an execution reaches, with [past] the
    dispatcher's events so far. *)
Definition invariant (urls : list string) (s : state) (past : list event) : Prop :=
  past ++ remaining (length urls) s = program_order urls
  ∧ map target_url (threads s) ++ in_hand s ++ pending s = urls
  ∧ match at_pc s with
    | AtAcquire => semaphore s = max_threads ∧ pending s ≠ []
    | AtStart _ | AtSleep _ | AtRelease => S (semaphore s) = max_threads
    | AtJoin i =>
        semaphore s = max_threads ∧ pending s = []
        ∧ i ≤ length (threads s)
        ∧ ∀ j t, j < i → threads s !! j = Some t → finished t = true
    | Returned =>
        semaphore s = max_threads ∧ pending s = []
        ∧ ∀ j t, threads s !! j = Some t → finished t = true
    end.

End Run.

(** The schedule that lets the dispatcher alone run the whole for loop:
    four steps for each url. *)
Definition dispatcher_only (urls : list string) : list actor :=
  flat_map (λ _, [Dispatcher; Dispatcher; Dispatcher; Dispatcher]) urls.

End Orchestrator.

(** ** A concrete platform and a few pages *)

Module Demo.

Definition el (name : string) (attrs : list (string * string)) (contents : list Bs4.node)
  : Bs4.node :=
  Bs4.Tag name (list_to_map attrs) contents.

Definition text (s : string) : Bs4.node := Bs4.NavigableString s.

Definition document (contents : list Bs4.node) : Bs4.node :=
  el "[document]" [] contents.

(** [<h1>Title A</h1><p>Body A</p>] with
    [<meta property="og:image" content="/img.png">]. *)
Definition page_a : Bs4.node :=
  document
    [el "html" []
       [el "head" [] [el "meta" [("property", "og:image"); ("content", "/img.png")] []];
        el "body" [] [el "h1" [] [text "Title A"]; el "p" [] [text "Body A"]]]].

(** A page with no heading, no description and no paragraph. *)
Definition page_empty : Bs4.node :=
  document [el "html" [] [el "head" [] []; el "body" [] []]].

(** A heading and an empty paragraph. *)
Definition page_empty_paragraph : Bs4.node :=
  document [el "h1" [] [text "Only a title"]; el "p" [] []].

(** [<meta property="og:image">] without a [content] attribute. *)
Definition page_image_without_content : Bs4.node :=
  document
    [el "meta" [("property", "og:image")] [];
     el "h1" [] [text "T"]; el "p" [] [text "B"]].

(** [<meta name="description">] without a [content] attribute. *)
Definition page_description_without_content : Bs4.node :=
  document
    [el "meta" [("name", "description")] [];
     el "h1" [] [text "T"]; el "p" [] [text "B"]].

(** [<meta name="description" content="a <b>bold</b> c">]. *)
Definition page_description_markup : Bs4.node :=
  document
    [el "meta" [("name", "description"); ("content", "a <b>bold</b> c")] [];
     el "h1" [] [text "T"]; el "p" [] [text "B"]].

(** A page with a relative [og:image]. *)
Definition page_relative_image : Bs4.node :=
  document
    [el "meta" [("property", "og:image"); ("content", "img.png")] [];
     el "h1" [] [text "Moved"]; el "p" [] [text "Body"]].

(** An [og:image] that the server does not have. *)
Definition page_missing_image : Bs4.node :=
  document
    [el "meta" [("property", "og:image"); ("content", "/missing.png")] [];
     el "h1" [] [text "Gone"]; el "p" [] [text "Body"]].

Definition ok (address : string) (page : Bs4.node) : http_result :=
  HttpOk {| status_code := 200; response_url := address;
            content := EmptyString; soup_of_content := page |}.

Definition bytes (address data : string) : http_result :=
  HttpOk {| status_code := 200; response_url := address;
            content := data; soup_of_content := document [text data] |}.

Definition not_found (address : string) : http_result :=
  HttpOk {| status_code := 404; response_url := address;
            content := "Not Found"; soup_of_content := document [text "Not Found"] |}.

(** The network of the scenarios. *)
Definition network : list (string * http_result) :=
  [("https://example.com/a", ok "https://example.com/a" page_a);
   ("https://example.com/img.png", bytes "https://example.com/img.png" "PNG-BYTES");
   ("https://example.com/empty", ok "https://example.com/empty" page_empty);
   ("https://example.com/title-only", ok "https://example.com/title-only" page_empty_paragraph);
   ("https://example.com/no-content", ok "https://example.com/no-content" page_image_without_content);
   ("https://example.com/no-description",
      ok "https://example.com/no-description" page_description_without_content);
   ("https://example.com/markup", ok "https://example.com/markup" page_description_markup);
   (* answered after a redirect to another host and directory *)
   ("https://example.com/moved", ok "https://cdn.example.org/new/page" page_relative_image);
   ("https://example.com/gone", ok "https://example.com/gone" page_missing_image);
   ("https://example.com/missing.png", not_found "https://example.com/missing.png");
   ("https://example.com/404", not_found "https://example.com/404");
   ("https://slow.example.com/", HttpTimeout "Read timed out.")].

Fixpoint lookup_address (address : string) (net : list (string * http_result)) : http_result :=
  match net with
  | [] => HttpRequestException "Name or service not known"
  | (a, r) :: rest => if String.eqb a address then r else lookup_address address rest
  end.

(** [scheme://authority] of an absolute address. *)
Definition origin (base : string) : string :=
  match PyStr.find "://" base with
  | Some i =>
      match PyStr.find "/" (PyStr.drop (i + 3) base) with
      | Some j => String.substring 0 (i + 3 + j) base
      | None => base
      end
  | None => EmptyString
  end.

Fixpoint upto_last_slash (s : string) : string :=
  match s with
  | EmptyString => EmptyString
  | String c r =>
      match upto_last_slash r with
      | EmptyString => if Ascii.eqb c "/" then "/" else EmptyString
      | r' => String c r'
      end
  end.

(** Reference resolution for the reference forms the scenarios use: an
    empty reference, an absolute address, an absolute path and a relative
    path without dot segments. *)
Definition resolve (base reference : string) : string :=
  if negb (PyStr.truthy reference) then base
  else if PyStr.startswith "http://" reference || PyStr.startswith "https://" reference
  then reference
  else if PyStr.startswith "/" reference then origin base +:+ reference
  else
    let o := origin base in
    match upto_last_slash (PyStr.drop (String.length o) base) with
    | EmptyString => o +:+ "/" +:+ reference
    | d => o +:+ d +:+ reference
    end.

Fixpoint is_identifier (s : string) : bool :=
  match s with
  | EmptyString => true
  | String c r =>
      let n := nat_of_ascii c in
      ((97 <=? n) && (n <=? 122) || (48 <=? n) && (n <=? 57)) && is_identifier r
  end.

(** Type selectors only: [select("p")] is every [p] element; anything
    that is not a lower-case name is refused as the engine refuses a
    malformed selector. *)
Definition select_by_name (selector : string) (soup : Bs4.node) : result (list Bs4.node) :=
  if is_identifier selector
  then Ret (List.filter (Bs4.matches selector []) (Bs4.descendants soup))
  else Raise (SelectorSyntaxError selector).

Definition hostname (address : string) : string :=
  match PyStr.find "://" address with
  | Some i =>
      let rest := PyStr.drop (i + 3) address in
      match PyStr.find "/" rest with
      | Some j => String.substring 0 j rest
      | None => rest
      end
  | None => EmptyString
  end.

Definition platform : Platform :=
  {| script_path := "/srv/crawler";
     strftime_now := "2024-02-03 12:00:00";
     strftime_ymd := "2024-02-03";
     http := fun address => lookup_address address network;
     soup_select := select_by_name;
     urljoin := resolve;
     urlparse_hostname := hostname;
     get_delay := fun _ => 0;
     get_body_class := fun _ => EmptyString |}.

(** A fresh installation: nothing on disk, nothing printed, no request
    made. *)
Definition fresh : World :=
  {| files := ∅; dirs := ∅; stdout := []; requests := [] |}.

Definition logs : string := "/srv/crawler/results/2024-02-03".

End Demo.


(** ** The vocabulary of the properties *)

(** A fetch that fails: a timeout, any other request error, or an answer
    whose status is not 200. *)
Definition fetch_fails (answer : http_result) : Prop :=
  match answer with
  | HttpOk response => status_code response ≠ 200%Z
  | HttpTimeout _ => True
  | HttpRequestException _ => True
  end.

(** The [content] attribute of the first tag [find] returns, when there
    is one: [None] for no tag, [Some None] for a tag without the
    attribute. *)
Definition found_content (tag : option Bs4.node) : option (option string) :=
  match tag with
  | Some (Bs4.Tag _ a _) => Some (a !! "content")
  | Some (Bs4.NavigableString _) => Some None
  | None => None
  end.

(** A tag that was found carries a [content] attribute. *)
Definition content_if_found (tag : option Bs4.node) : Prop :=
  found_content tag ≠ Some None.

(** The fallback chain in the words of the specification: the content of
    the description meta element if present and non-empty, else the text
    of the first paragraph, else ["No Body"]. *)
Definition fallback_chain (soup : Bs4.node) : string :=
  match found_content (Bs4.find "meta" [("name", "description")] soup) with
  | Some (Some c) => if PyStr.truthy c then c else first_paragraph_text soup
  | _ => first_paragraph_text soup
  end.

(** The heading text or the sentinel, line 43. *)
Definition title_of (soup : Bs4.node) : string :=
  match Bs4.find "h1" [] soup with
  | Some h1 => Bs4.get_text h1
  | None => "No Title"
  end.

(** A non-empty image file is already stored under [filename]. *)
Definition image_stored {pf : Platform} (filename : string) (fs : gmap string string) : bool :=
  match fs !! data_path (filename +:+ ".png") with
  | Some data => PyStr.truthy data
  | None => false
  end.

(** The text artifact, line 178. *)
Definition text_artifact (title body : string) : string :=
  title +:+ Os.NL +:+ "---" +:+ Os.NL +:+ body +:+ Os.NL.

(** The title as it is written and the file name made of it, lines
    169-173. *)
Definition final_title (title title_search title_replace : string) : string :=
  PyStr.strip (apply_title_transform title title_search title_replace).

(** The files after a download attempt for [filename]: image and
    sidecar when the answer has status 200, nothing otherwise. *)
Definition downloaded {pf : Platform} (image_url filename : string) (fs : gmap string string)
  : gmap string string :=
  match http image_url with
  | HttpOk response =>
      if (status_code response =? 200)%Z
      then <[ data_path (filename +:+ "-image.txt") := image_url ]>
             (<[ data_path (filename +:+ ".png") := content response ]> fs)
      else fs
  | HttpTimeout _ | HttpRequestException _ => fs
  end.

(** ** Further vocabulary *)

(** [re.search(r'<.*?>', s)] finds a match: some [<] of [s] has a [>]
    behind it on its line. *)
Fixpoint has_tag (s : string) : bool :=
  match s with
  | EmptyString => false
  | String c r => (Ascii.eqb c "<" && bool_decide (is_Some (Re.find_gt r))) || has_tag r
  end.

(** No whitespace at the start. *)
Definition starts_clean (s : string) : Prop :=
  match s with
  | EmptyString => True
  | String c _ => PyStr.isspace c = false
  end.

(** ** Measures on executions of the dispatch loop *)

Module Ledger.
Import Orchestrator.

(** The steps an execution can still take from [s], for [n] urls in
    all: the dispatcher's events to come, one finish for every running
    thread, and one for every url whose thread is not started yet. *)
Definition budget {pf : Platform} (n : nat) (s : state) : nat :=
  length (remaining n s) + running s + length (in_hand s) + length (pending s).

(** The threads that finished in a trace, in the order they did. *)
Definition finished_indices (trace : list event) : list nat :=
  omap (fun e => match e with EvFinish i => Some i | _ => None end) trace.

(** What [log_failed_url] appends for these urls, one after the other. *)
Definition fails_lines (urls : list string) : string :=
  foldr (fun url rest => url +:+ Os.NL +:+ rest) EmptyString urls.

(** The books of a run in which every fetch fails, against the world
    [w] it started in: [fin] are the threads that finished, in order,
    [done] their urls; [fails.txt] has grown by their lines, no other
    file has changed, and each was asked for once. *)
Definition ledger {pf : Platform} (urls : list string) (w : World)
    (s : state) (fin : list nat) (done : list string) : Prop :=
  Forall2 (fun i url => urls !! i = Some url) fin done
  ∧ NoDup fin
  ∧ (∀ i, i ∈ fin ↔ ∃ t, threads s !! i = Some t ∧ finished t = true)
  ∧ (∀ p, p ≠ Os.path_join log_directory ["fails.txt"] →
          files (world s) !! p = files w !! p)
  ∧ default EmptyString (files (world s) !! Os.path_join log_directory ["fails.txt"])
    = default EmptyString (files w !! Os.path_join log_directory ["fails.txt"])
      +:+ fails_lines done
  ∧ requests (world s) = requests w ++ done.

End Ledger.

(** ** Text files and the configuration *)

From Stdlib Require DecimalString.

Module Text.

(** What reading in text mode does to line ends: CR LF and a lone CR
    both arrive as LF. *)
Fixpoint universal_newlines (s : string) : string :=
  match s with
  | EmptyString => EmptyString
  | String c r =>
      if Ascii.eqb c PyStr.CR then
        match r with
        | String c' r' =>
            if Ascii.eqb c' PyStr.LF
            then String PyStr.LF (universal_newlines r')
            else String PyStr.LF (universal_newlines r)
        | EmptyString => String PyStr.LF EmptyString
        end
      else String c (universal_newlines r)
  end.

(** [file.readlines()] on text already read: the lines, each with its
    line feed. *)
Fixpoint readlines (s : string) : list string :=
  match s with
  | EmptyString => []
  | String c r =>
      if Ascii.eqb c PyStr.LF then String c EmptyString :: readlines r
      else match readlines r with
           | [] => [String c EmptyString]
           | line :: rest => String c line :: rest
           end
  end.

(** The characters below 256 at which [str.splitlines] cuts: LF, VT, FF,
    CR, FS, GS, RS and NEL. *)
Definition line_boundary (c : ascii) : bool :=
  let n := nat_of_ascii c in
  (10 <=? n) && (n <=? 13) || (28 <=? n) && (n <=? 30) || (n =? 133).

(** [s.splitlines()]: the lines without their ends; CR LF is one end. *)
Fixpoint splitlines (s : string) : list string :=
  match s with
  | EmptyString => []
  | String c r =>
      if line_boundary c then
        match r with
        | String c' r' =>
            if Ascii.eqb c PyStr.CR && Ascii.eqb c' PyStr.LF
            then EmptyString :: splitlines r'
            else EmptyString :: splitlines r
        | EmptyString => [EmptyString]
        end
      else match splitlines r with
           | [] => [String c EmptyString]
           | line :: rest => String c line :: rest
           end
  end.

(** [s.split(sep)] for a separator of one character. *)
Fixpoint split (sep : ascii) (s : string) : list string :=
  match s with
  | EmptyString => [EmptyString]
  | String c r =>
      if Ascii.eqb c sep then EmptyString :: split sep r
      else match split sep r with
           | [] => [String c EmptyString]
           | part :: parts => String c part :: parts
           end
  end.

Definition digit (c : ascii) : option Z :=
  let n := nat_of_ascii c in
  if (48 <=? n) && (n <=? 57) then Some (Z.of_nat (n - 48)) else None.

(** The digits of a decimal literal, with single underscores allowed
    between digits; [after_digit] tells whether the character before was
    a digit. *)
Fixpoint digits_value (acc : Z) (after_digit : bool) (s : string) : option Z :=
  match s with
  | EmptyString => if after_digit then Some acc else None
  | String c r =>
      match digit c with
      | Some d => digits_value (10 * acc + d) true r
      | None =>
          if Ascii.eqb c "_" && after_digit then digits_value acc false r else None
      end
  end.

(** [int(s)] for a string: surrounding whitespace is dropped, a sign may
    lead, the rest is a decimal literal; [None] stands for [ValueError].
    (The interpreter's limit on the number of digits is not modelled.) *)
Definition int (s : string) : option Z :=
  match PyStr.strip s with
  | String "-" r => Z.opp <$> digits_value 0 false r
  | String "+" r => digits_value 0 false r
  | literal => digits_value 0 false literal
  end.

(** [str(n)] for an integer. *)
Definition str (n : Z) : string :=
  DecimalString.NilZero.string_of_int (Z.to_int n).

End Text.

(** The exceptions that reading the configuration and the url list can
    end in. *)
Inductive startup_error : Type :=
| ValueError (literal : string)      (* int(literal) *)
| IndexError
| NameError (name : string)
| FileNotFoundError (path : string)
| IsADirectoryError (path : string).

Module Config.

Section Files.
Context {pf : Platform}.

(** What [os.path.exists(path)] answers in [w]. *)
Definition path_exists (path : string) (w : World) : bool :=
  bool_decide (is_Some (files w !! path)) || bool_decide (path ∈ dirs w).

(** [with open(path, 'r') as file: file.read()] *)
Definition read_text (path : string) (w : World) : startup_error + string :=
  match files w !! path with
  | Some data => inr (Text.universal_newlines data)
  | None =>
      if bool_decide (path ∈ dirs w)
      then inl (IsADirectoryError path)
      else inl (FileNotFoundError path)
  end.

(** [line.split('=')[1]] *)
Definition value_of (line : string) : startup_error + string :=
  match Text.split "=" line !! 1 with
  | Some value => inr value
  | None => inl IndexError
  end.

(** [int(line.split('=')[1])] *)
Definition int_value_of (line : string) : startup_error + Z :=
  match value_of line with
  | inl e => inl e
  | inr value =>
      match Text.int value with
      | Some n => inr n
      | None => inl (ValueError value)
      end
  end.

(** [line.split('=')[1].strip()] *)
Definition stripped_value_of (line : string) : startup_error + string :=
  match value_of line with
  | inl e => inl e
  | inr value => inr (PyStr.strip value)
  end.

(** The loop of [get_delay], lines 110-113, the [return 0] of line 113
    at its end. *)
Fixpoint delay_of_lines (lines : list string) : startup_error + Z :=
  match lines with
  | [] => inr 0%Z
  | line :: rest =>
      if PyStr.startswith "delay=" line then int_value_of line
      else delay_of_lines rest
  end.

(** [os.path.join(script_path(), 'config', f'{hostname}.txt')] *)
Definition config_file (hostname : string) : string :=
  Os.path_join script_path ["config"; hostname +:+ ".txt"].

(** [get_delay], lines 104-113. *)
Definition get_delay (hostname : string) (w : World) : startup_error + Z :=
  if path_exists (config_file hostname) w then
    match read_text (config_file hostname) w with
    | inl e => inl e
    | inr text => delay_of_lines (Text.readlines text)
    end
  else inr 0%Z.

(** The loop of [get_body_class], lines 121-124. *)
Fixpoint body_class_of_lines (lines : list string) : startup_error + string :=
  match lines with
  | [] => inr EmptyString
  | line :: rest =>
      if PyStr.startswith "body_class=" line then stripped_value_of line
      else body_class_of_lines rest
  end.

(** [get_body_class], lines 115-124. *)
Definition get_body_class (hostname : string) (w : World) : startup_error + string :=
  if path_exists (config_file hostname) w then
    match read_text (config_file hostname) w with
    | inl e => inl e
    | inr text => body_class_of_lines (Text.readlines text)
    end
  else inr EmptyString.

End Files.

End Config.

(** ** The script's entry, lines 252-275 *)

Module Main.

(** The three names the loop over the global configuration assigns.
    Lines 255-257 bind [max_threads] and (twice) [title_search];
    [title_replace] is bound only by a line of the file, so it is an
    option here. *)
Record settings : Type := {
  max_threads : Z;
  title_search : string;
  title_replace : option string;
}.

Section Entry.
Context {pf : Platform}.

Definition defaults : settings :=
  {| max_threads := 4; title_search := EmptyString; title_replace := None |}.

(** The loop of lines 262-268. *)
Fixpoint read_settings (lines : list string) (st : settings) : startup_error + settings :=
  match lines with
  | [] => inr st
  | line :: rest =>
      if PyStr.startswith "max_threads=" line then
        match Config.int_value_of line with
        | inl e => inl e
        | inr n =>
            read_settings rest
              {| max_threads := n; title_search := title_search st;
                 title_replace := title_replace st |}
        end
      else if PyStr.startswith "title_search=" line then
        match Config.stripped_value_of line with
        | inl e => inl e
        | inr value =>
            read_settings rest
              {| max_threads := max_threads st; title_search := value;
                 title_replace := title_replace st |}
        end
      else if PyStr.startswith "title_replace=" line then
        match Config.stripped_value_of line with
        | inl e => inl e
        | inr value =>
            read_settings rest
              {| max_threads := max_threads st; title_search := title_search st;
                 title_replace := Some value |}
        end
      else read_settings rest st
  end.

Definition global_config_file : string :=
  Os.path_join script_path ["config"; "global-engine-config.txt"].

Definition input_file : string := Os.path_join script_path ["urls.txt"].

(** Line 272: the stripped lines that are not empty. *)
Definition read_urls (text : string) : list string :=
  map PyStr.strip
    (List.filter (fun url => PyStr.truthy (PyStr.strip url)) (Text.splitlines text)).

(** Lines 254-268: the settings after the global configuration, if
    there is one, has been read. *)
Definition load_settings (w : World) : startup_error + settings :=
  if Config.path_exists global_config_file w then
    match Config.read_text global_config_file w with
    | inl e => inl e
    | inr text => read_settings (Text.readlines text) defaults
    end
  else inr defaults.

(** The script up to the call on line 275: the arguments
    [crawl_websites] is called with, or the exception that ends the
    script before.  The unbound [title_replace] is a [NameError] when the
    call evaluates its arguments. *)
Definition main (w : World) : startup_error + (list string * Z * string * string) :=
  match load_settings w with
  | inl e => inl e
  | inr st =>
      match Config.read_text input_file w with
      | inl e => inl e
      | inr text =>
          let urls := read_urls text in
          match title_replace st with
          | None => inl (NameError "title_replace")
          | Some replace => inr (urls, max_threads st, title_search st, replace)
          end
      end
  end.

End Entry.

End Main.

(** [log_to_csv], lines 150-162. *)
Definition log_to_csv {pf : Platform} (url : string) (status_code : Z)
    (log_directory : string) : M unit :=
  ensure_directory log_directory ;;;
  let timestamp := strftime_now in
  let log_data := [url; Text.str status_code; timestamp] in
  let log_file_path := Os.path_join log_directory ["logs.csv"] in
  Os.append_file log_file_path (csv_row log_data).

(** ** Installations for the scenarios *)

Module Installation.

(** A host configuration with a rule and two delay lines, the first of
    them with blanks around the number and a second [=]. *)
Definition host_config : string :=
  "body_class= p " +:+ Os.NL +:+ "delay= 2 =x" +:+ Os.NL +:+ "delay=9" +:+ Os.NL.

(** A global configuration that binds all three names. *)
Definition global_config : string :=
  "max_threads=2" +:+ Os.NL +:+ "title_search=foo" +:+ Os.NL
  +:+ "title_replace=bar" +:+ Os.NL.

(** A url list with blanks around a url, an empty line and both kinds of
    line end. *)
Definition url_list : string :=
  " https://example.com/a " +:+ String PyStr.CR Os.NL +:+ String PyStr.CR Os.NL
  +:+ "https://slow.example.com/" +:+ Os.NL.

Definition configured : World :=
  {| files :=
       <[ "/srv/crawler/config/example.com.txt" := host_config ]>
         (<[ "/srv/crawler/config/global-engine-config.txt" := global_config ]>
            (<[ "/srv/crawler/urls.txt" := url_list ]> ∅));
     dirs := {[ "/srv/crawler/config" ]}; stdout := []; requests := [] |}.

(** A host configuration that sets neither key. *)
Definition commented : World :=
  {| files := <[ "/srv/crawler/config/example.com.txt" := "# no settings" +:+ Os.NL ]> ∅;
     dirs := {[ "/srv/crawler/config" ]}; stdout := []; requests := [] |}.

(** An image stored by an earlier run under the title of page A. *)
Definition with_image : World :=
  {| files := <[ "/srv/crawler/data/Title A.png" := "OLD-BYTES" ]> ∅;
     dirs := ∅; stdout := []; requests := [] |}.

End Installation.

(** * Properties *)

(** ** Strings *)

Lemma app_cons_s (x : ascii) (a b : string) : String x a +:+ b = String x (a +:+ b).
Proof. reflexivity. Qed.

Lemma app_nil_l_s (a : string) : EmptyString +:+ a = a.
Proof. reflexivity. Qed.

Lemma app_assoc_s (a b c : string) : (a +:+ b) +:+ c = a +:+ (b +:+ c).
Proof.
  induction a as [|x a IH]; [reflexivity|].
  rewrite !app_cons_s. by rewrite IH.
Qed.

Lemma app_nil_r_s (a : string) : a +:+ EmptyString = a.
Proof.
  induction a as [|x a IH]; [reflexivity|].
  rewrite app_cons_s. by rewrite IH.
Qed.

Lemma filter_cons keep c r :
  PyStr.filter keep (String c r)
  = if keep c then String c (PyStr.filter keep r) else PyStr.filter keep r.
Proof. reflexivity. Qed.

Lemma filter_filter keep s : PyStr.filter keep (PyStr.filter keep s) = PyStr.filter keep s.
Proof.
  induction s as [|c s IH]; simpl; [reflexivity|].
  destruct (keep c) eqn:E; simpl; rewrite ?E, IH; reflexivity.
Qed.

Lemma mem_filter keep c s :
  PyStr.mem c (PyStr.filter keep s) = PyStr.mem c s && keep c.
Proof.
  induction s as [|a s IH]; simpl; [reflexivity|].
  destruct (keep a) eqn:E; simpl; rewrite IH.
  - destruct (Ascii.eqb_spec c a) as [->|]; simpl; [by rewrite E | reflexivity].
  - destruct (Ascii.eqb_spec c a) as [->|]; simpl; [|reflexivity].
    rewrite E. by rewrite andb_false_r.
Qed.

Lemma filter_id keep s :
  (∀ c, PyStr.mem c s = true → keep c = true) → PyStr.filter keep s = s.
Proof.
  induction s as [|a s IH]; simpl; intros Hk; [reflexivity|].
  rewrite (Hk a) by (by rewrite Ascii.eqb_refl).
  f_equal. apply IH. intros c Hc. apply Hk. rewrite Hc. by rewrite orb_true_r.
Qed.

Lemma truthy_ne (s : string) : s ≠ EmptyString → PyStr.truthy s = true.
Proof. by destruct s. Qed.

Lemma last_app (s t : string) : t ≠ EmptyString → PyStr.last (s +:+ t) = PyStr.last t.
Proof.
  intros Ht. induction s as [|c s IH]; [reflexivity|].
  rewrite app_cons_s. simpl. rewrite IH.
  destruct (s +:+ t) eqn:E; [|reflexivity].
  destruct s; [rewrite app_nil_l_s in E; congruence | rewrite app_cons_s in E; discriminate].
Qed.

Lemma last_some_nonempty (s : string) (c : ascii) : PyStr.last s = Some c → s ≠ EmptyString.
Proof. by intros H ->. Qed.

Lemma last_suffix (s suffix : string) (c : ascii) :
  PyStr.last suffix = Some c → PyStr.last (s +:+ suffix) = Some c.
Proof. intros Hl. rewrite last_app; [exact Hl | by eapply last_some_nonempty]. Qed.

Lemma last_ne (p q : string) (c d : ascii) :
  PyStr.last p = Some c → PyStr.last q = Some d → c ≠ d → p ≠ q.
Proof. intros Hp Hq Hcd ->. congruence. Qed.

(** The string functions on a few inputs, as Python evaluates them. *)
Example strip_example : PyStr.strip "  a b  " = "a b".
Proof. reflexivity. Qed.

Example strip_line_end : PyStr.strip ("a" +:+ Os.NL) = "a".
Proof. reflexivity. Qed.

Example replace_example : PyStr.replace "aa" "b" "aaaaa" = "bba".
Proof. reflexivity. Qed.

Example replace_empty_pattern : PyStr.replace EmptyString "-" "abc" = "-a-b-c-".
Proof. reflexivity. Qed.

Example join_example : PyStr.join " " ["a"; "b"; "c"] = "a b c".
Proof. reflexivity. Qed.

Example sub_script_example :
  Re.sub_script "ab<script x>foo</script>cd<script>e" = "abcd<script>e".
Proof. reflexivity. Qed.

Example sub_tag_example : Re.sub_tag "a<b>c<d" = "ac<d".
Proof. reflexivity. Qed.

(** The dot of the tag pattern stops at a line feed. *)
Example sub_tag_line_end :
  Re.sub_tag ("a<b" +:+ Os.NL +:+ "c>d") = "a<b" +:+ Os.NL +:+ "c>d".
Proof. reflexivity. Qed.

Example path_join_example :
  Os.path_join "/srv/crawler" ["data"; "x.txt"] = "/srv/crawler/data/x.txt".
Proof. reflexivity. Qed.

Example csv_row_example :
  csv_row ["https://example.com/a,b"; "200"; "2024-02-03 12:00:00"]
  = String PyStr.DQUOTE "https://example.com/a,b"
    +:+ String PyStr.DQUOTE ",200,2024-02-03 12:00:00" +:+ String PyStr.CR Os.NL.
Proof. reflexivity. Qed.

(** ** [clean_filename] *)

(** A character is in the cleaned title exactly when it is in the title
    and is not in the class. *)
Lemma clean_filename_chars title c :
  PyStr.mem c (clean_filename title)
  = PyStr.mem c title && negb (PyStr.mem c Re.invalid_chars).
Proof. apply mem_filter. Qed.

Lemma clean_filename_idempotent title :
  clean_filename (clean_filename title) = clean_filename title.
Proof. apply filter_filter. Qed.

Lemma clean_filename_clean title :
  (∀ c, PyStr.mem c title = true → PyStr.mem c Re.invalid_chars = false) →
  clean_filename title = title.
Proof.
  intros Hc. apply filter_id. intros c Hm. by rewrite (Hc c Hm).
Qed.

Example clean_filename_hello_world : clean_filename "Hello/World" = "HelloWorld".
Proof. reflexivity. Qed.

(** C3.  The specification has the backslash among the removed characters; in
    the class of the source the backslash escapes the slash that follows
    it.  On the title [a\b] the code returns the title unchanged, not
    [ab]: the backslash is no member of the class and stays in the file
    name. *)
Theorem clean_filename_keeps_backslash :
  clean_filename "a\b" = "a\b"
  ∧ clean_filename "a\b" ≠ "ab"
  ∧ PyStr.mem "\" Re.invalid_chars = false.
Proof. split; [reflexivity | split; [discriminate | reflexivity]]. Qed.

(** ** Paths *)

Lemma join2_suffix (path b : string) : ∃ prefix, Os.join2 path b = prefix +:+ b.
Proof.
  unfold Os.join2. destruct (PyStr.startswith "/" b).
  - by exists EmptyString.
  - destruct (negb (PyStr.truthy path) || Os.endswith_slash path).
    + by exists path.
    + exists (path +:+ "/"). by rewrite app_assoc_s.
Qed.

Lemma path_join_last (dir name : string) (c : ascii) :
  PyStr.last name = Some c → PyStr.last (Os.path_join dir [name]) = Some c.
Proof.
  intros Hl. unfold Os.path_join. cbn [foldl].
  destruct (join2_suffix dir name) as [prefix ->].
  rewrite last_app; [exact Hl | by eapply last_some_nonempty].
Qed.

Section Paths.
Context {pf : Platform}.

(** An artifact path with a relative name is the name behind a prefix
    that the installation fixes. *)
Lemma data_path_relative :
  ∃ prefix, ∀ name, PyStr.startswith "/" name = false → data_path name = prefix +:+ name.
Proof.
  unfold data_path, Os.path_join. cbn [foldl].
  set (d := Os.join2 script_path "data"). unfold Os.join2.
  destruct (negb (PyStr.truthy d) || Os.endswith_slash d).
  - exists d. intros name ->. reflexivity.
  - exists (d +:+ "/"). intros name ->. by rewrite app_assoc_s.
Qed.

Lemma clean_filename_relative (title suffix : string) :
  PyStr.startswith "/" suffix = false →
  PyStr.startswith "/" (clean_filename title +:+ suffix) = false.
Proof.
  intros Hs. unfold clean_filename, Re.sub_invalid_chars.
  induction title as [|c title IH]; [exact Hs|].
  rewrite filter_cons.
  destruct (negb (PyStr.mem c Re.invalid_chars)) eqn:E; [|exact IH].
  rewrite app_cons_s. cbn [PyStr.startswith].
  destruct (Ascii.eqb_spec "/" c) as [<-|]; [|reflexivity].
  vm_compute in E. discriminate E.
Qed.

(** Two artifacts of one file name with different suffixes are different
    files. *)
Lemma data_path_suffix_ne (title a b : string) :
  PyStr.startswith "/" a = false → PyStr.startswith "/" b = false → a ≠ b →
  data_path (clean_filename title +:+ a) ≠ data_path (clean_filename title +:+ b).
Proof.
  intros Ha Hb Hab. destruct data_path_relative as [prefix Hp].
  rewrite !Hp by (by apply clean_filename_relative).
  intros E. apply (inj (String.append prefix)) in E.
  apply (inj (String.append (clean_filename title))) in E. done.
Qed.

Lemma data_path_name_last (name : string) (c : ascii) :
  PyStr.last name = Some c → PyStr.last (data_path name) = Some c.
Proof.
  intros Hl. unfold data_path, Os.path_join. cbn [foldl].
  destruct (join2_suffix (Os.join2 script_path "data") name) as [prefix ->].
  rewrite last_app; [exact Hl | by eapply last_some_nonempty].
Qed.

(** The image and its sidecar are two files, whatever the file name. *)
Lemma png_ne_sidecar (filename : string) :
  data_path (filename +:+ ".png") ≠ data_path (filename +:+ "-image.txt").
Proof.
  eapply last_ne; [apply data_path_name_last, last_suffix; reflexivity ..|].
  discriminate.
Qed.

(** The four artifacts of a file name and [successes.csv] are five
    different files. *)
Lemma artifact_paths (title log_directory : string) :
  let filename := clean_filename title in
  let txt := data_path (filename +:+ ".txt") in
  let urlp := data_path (filename +:+ "-url.txt") in
  let png := data_path (filename +:+ ".png") in
  let side := data_path (filename +:+ "-image.txt") in
  let successes := Os.path_join log_directory ["successes.csv"] in
  txt ≠ urlp ∧ txt ≠ side ∧ urlp ≠ side ∧ txt ≠ png ∧ urlp ≠ png
  ∧ successes ≠ txt ∧ successes ≠ urlp ∧ successes ≠ png ∧ successes ≠ side.
Proof.
  intros filename txt urlp png side successes.
  assert (Ls : PyStr.last successes = Some "v"%char)
    by (apply path_join_last; reflexivity).
  assert (Lt : PyStr.last txt = Some "t"%char)
    by (apply data_path_name_last, last_suffix; reflexivity).
  assert (Lu : PyStr.last urlp = Some "t"%char)
    by (apply data_path_name_last, last_suffix; reflexivity).
  assert (Lp : PyStr.last png = Some "g"%char)
    by (apply data_path_name_last, last_suffix; reflexivity).
  assert (Li : PyStr.last side = Some "t"%char)
    by (apply data_path_name_last, last_suffix; reflexivity).
  repeat split;
    first [ apply data_path_suffix_ne; [reflexivity..|discriminate]
          | eapply last_ne; [eassumption..|discriminate] ].
Qed.

End Paths.

(** ** Extraction *)

Section Extraction.
Context {pf : Platform}.

(** C10.  [get_page_content_with_rule] does not depend on its second
    argument: two calls that differ only in [hostname] return the same
    triple and leave the same world; so the call on line 165, which
    passes [title_search] there, extracts what a call with the url's
    host name would. *)
Theorem get_page_content_with_rule_ignores_hostname :
  (∀ url hostname1 hostname2 body_class_rule w,
     get_page_content_with_rule url hostname1 body_class_rule w
     = get_page_content_with_rule url hostname2 body_class_rule w)
  ∧ (∀ url title_search body_class_rule w,
       get_page_content_with_rule url title_search body_class_rule w
       = get_page_content_with_rule url (urlparse_hostname url) body_class_rule w).
Proof. split; reflexivity. Qed.

Lemma getitem_if_found (tag : option Bs4.node) :
  content_if_found tag →
  match tag with
  | Some t => result_bind (Bs4.getitem t "content") (λ c, Ret (Some c))
  | None => Ret None
  end = Ret (mjoin (found_content tag)).
Proof.
  unfold content_if_found.
  destruct tag as [[s|name a cs]|]; cbn; [done| |done].
  destruct (a !! "content"); done.
Qed.

(** Without a usable description, [extract_default_body_content] is what
    the fallback chain says, provided the description element, if there
    is one, has its [content]. *)
Lemma extract_default_body_content_chain (soup : Bs4.node) :
  content_if_found (Bs4.find "meta" [("name", "description")] soup) →
  extract_default_body_content soup = Ret (fallback_chain soup).
Proof.
  intros Hc. unfold extract_default_body_content, fallback_chain.
  rewrite (getitem_if_found _ Hc). cbn [result_bind].
  destruct (found_content _) as [[c|]|]; cbn [mjoin option_join]; [|done..].
  by destruct (PyStr.truthy c).
Qed.

(** C6, as the code has it.  When no rule is configured, or the rule
    selects elements whose joined text is empty, the body is taken from
    the fallback chain (the content of the description meta element if it
    is non-empty, else the text of the first paragraph, else the
    sentinel), and that text then has its script blocks and tags cut out
    and is stripped.  So with a description whose content is not empty
    the body is the cleaned content, which is the stripped content only
    when it holds no tag.  The statement is for pages whose description
    and image meta elements, where present, carry a [content]
    attribute. *)
Theorem body_follows_fallback_chain (soup : Bs4.node) (rule : string) :
  (rule = EmptyString
   ∨ ∃ elements, soup_select rule soup = Ret elements
                 ∧ PyStr.join " " (map Bs4.get_text elements) = EmptyString) →
  content_if_found (Bs4.find "meta" [("name", "description")] soup) →
  content_if_found (Bs4.find "meta" [("property", "og:image")] soup) →
  (∃ og, extract_page soup rule
         = Ret (title_of soup, clean_body_text (fallback_chain soup), og))
  ∧ (∀ c, found_content (Bs4.find "meta" [("name", "description")] soup) = Some (Some c) →
          c ≠ EmptyString →
          ∃ og, extract_page soup rule = Ret (title_of soup, clean_body_text c, og)).
Proof.
  intros Hrule Hdesc Himage.
  assert (Hr : rule_body_text soup rule = Ret EmptyString).
  { unfold rule_body_text. destruct Hrule as [->|(elements & -> & Hj)]; [done|].
    destruct (PyStr.truthy rule); [|done]. cbn [result_bind].
    destruct elements; [done | by rewrite Hj]. }
  assert (He : ∃ og, extract_page soup rule
                     = Ret (title_of soup, clean_body_text (fallback_chain soup), og)).
  { unfold extract_page. rewrite Hr. cbn [result_bind PyStr.truthy negb].
    rewrite (extract_default_body_content_chain _ Hdesc). cbn [result_bind].
    rewrite (getitem_if_found _ Himage). cbn [result_bind]. by eexists. }
  split; [exact He|].
  intros c Hc Hne. destruct He as [og He]. exists og. rewrite He.
  unfold fallback_chain. rewrite Hc. by rewrite (truthy_ne _ Hne).
Qed.

End Extraction.

(** C4.  Extraction raises on a page whose [og:image] meta element has
    no [content] attribute: [og_image_tag['content']] on line 65 is a
    [KeyError] that neither [except] clause catches.  The same holds for
    a description meta element without [content] (line 243). *)
Theorem extraction_raises_without_content :
  extract_page (pf := Demo.platform) Demo.page_image_without_content EmptyString
  = Raise (KeyError "content")
  ∧ extract_page (pf := Demo.platform) Demo.page_description_without_content EmptyString
    = Raise (KeyError "content")
  ∧ (get_page_content_with_rule (pf := Demo.platform)
       "https://example.com/no-content" EmptyString EmptyString Demo.fresh).1
    = Raise (KeyError "content")
  ∧ (crawl_page_with_rule (pf := Demo.platform)
       "https://example.com/no-content" Demo.logs EmptyString EmptyString EmptyString
       Demo.fresh).1
    = Raise (KeyError "content").
Proof. repeat split; vm_compute; reflexivity. Qed.

(** ** What each function leaves behind *)

Section Effects.
Context {pf : Platform}.

(** What [get_page_content_with_rule] leaves behind: one request, no
    file and no directory touched. *)
Lemma get_page_content_with_rule_world url hostname rule w :
  let w' := (get_page_content_with_rule url hostname rule w).2 in
  files w' = files w ∧ dirs w' = dirs w ∧ requests w' = requests w ++ [url].
Proof.
  unfold get_page_content_with_rule, bind, requests_get, lift, ret, Os.print; simpl.
  destruct (http url) as [response|d|d]; simpl; [|done..].
  destruct (status_code response =? 200)%Z; simpl; [|done].
  destruct (extract_page _ _); simpl; done.
Qed.

(** A failed fetch yields the triple of [None]s. *)
Lemma get_page_content_with_rule_failed url hostname rule w :
  fetch_fails (http url) →
  (get_page_content_with_rule url hostname rule w).1 = Ret (None, None, None).
Proof.
  unfold get_page_content_with_rule, bind, requests_get, lift, ret, Os.print, fetch_fails; simpl.
  destruct (http url) as [response|d|d]; simpl; [|done..].
  intros Hs. destruct (Z.eqb_spec (status_code response) 200); [done|reflexivity].
Qed.

(** [report_failure] returns, and appends the line to [fails.txt]. *)
Lemma report_failure_effect url log_directory w :
  let fails := Os.path_join log_directory ["fails.txt"] in
  ∃ w', report_failure url log_directory w = (Ret tt, w')
        ∧ files w' = <[ fails := default EmptyString (files w !! fails) +:+ url +:+ Os.NL ]> (files w)
        ∧ requests w' = requests w.
Proof.
  unfold report_failure, log_failed_url, ensure_directory, bind, Os.print,
    Os.path_exists, Os.makedirs, Os.append_file, ret; simpl.
  destruct (negb _); simpl; eexists; (split; [reflexivity|]); simpl; done.
Qed.

Lemma save_image_effect (image_url filename : string) (w : World) :
  ∃ w', save_image image_url filename w = (Ret tt, w')
        ∧ dirs w' = dirs w
        ∧ if image_stored filename (files w)
          then files w' = files w ∧ requests w' = requests w
          else files w' = downloaded image_url filename (files w)
               ∧ requests w' = requests w ++ [image_url].
Proof.
  unfold save_image, image_stored, downloaded, bind, ret, requests_get,
    Os.path_exists, Os.path_getsize, Os.print, Os.write_file.
  set (png := data_path (filename +:+ ".png")).
  cbv beta iota.
  destruct (files w !! png) as [data|] eqn:E.
  - rewrite bool_decide_true by eauto. cbn [orb]. cbv beta iota.
    rewrite E. cbn [default].
    destruct data as [|c data]; cbn [String.length Nat.ltb Nat.leb PyStr.truthy];
      cbv beta iota.
    + destruct (http image_url) as [r|d|d]; [destruct (status_code r =? 200)%Z|..];
        eexists; (split; [reflexivity|]); cbn; done.
    + eexists; (split; [reflexivity|]); cbn; done.
  - rewrite bool_decide_false by (by intros [? ?]). cbn [orb].
    destruct (bool_decide (png ∈ dirs w)); cbv beta iota;
      rewrite ?E; cbn [default String.length Nat.ltb Nat.leb];
      cbv beta iota;
      (destruct (http image_url) as [r|d|d]; [destruct (status_code r =? 200)%Z|..];
        eexists; (split; [reflexivity|]); cbn; done).
Qed.

(** A download touches the image and its sidecar only. *)
Lemma downloaded_other (image_url filename p : string) (fs : gmap string string) :
  p ≠ data_path (filename +:+ ".png") → p ≠ data_path (filename +:+ "-image.txt") →
  downloaded image_url filename fs !! p = fs !! p.
Proof.
  intros H1 H2. unfold downloaded.
  destruct (http image_url) as [r|d|d]; [|done..].
  destruct (status_code r =? 200)%Z; [|done].
  by rewrite !lookup_insert_ne.
Qed.

Lemma image_stored_other (filename p v : string) (fs : gmap string string) :
  p ≠ data_path (filename +:+ ".png") →
  image_stored filename (<[ p := v ]> fs) = image_stored filename fs.
Proof. intros Hp. unfold image_stored. by rewrite lookup_insert_ne. Qed.

Lemma log_successful_crawl_effect (url log_directory : string) (w : World) :
  let successes := Os.path_join log_directory ["successes.csv"] in
  ∃ w', log_successful_crawl url log_directory w = (Ret tt, w')
        ∧ files w' = <[ successes := default EmptyString (files w !! successes)
                                     +:+ csv_row [url; "200"; strftime_now] ]> (files w)
        ∧ requests w' = requests w.
Proof.
  unfold log_successful_crawl, ensure_directory, bind, Os.path_exists, Os.makedirs,
    Os.append_file, ret. cbv beta iota. cbn [fst snd].
  destruct (negb _); cbv beta iota; eexists; (split; [reflexivity|]); cbn; done.
Qed.

(** The files and requests [persist_page] leaves: the text artifact and
    the url sidecar, then the image and its sidecar if one is to be
    fetched and is answered, then the row in [successes.csv]. *)
Lemma persist_page_effect
    (url log_directory title_search title_replace title body : string)
    (og_image_url : option string) (w : World) :
  let title' := final_title title title_search title_replace in
  let filename := clean_filename title' in
  let image := urljoin url (default EmptyString og_image_url) in
  let successes := Os.path_join log_directory ["successes.csv"] in
  let written :=
    <[ data_path (filename +:+ "-url.txt") := url ]>
      (<[ data_path (filename +:+ ".txt") := text_artifact title' body ]> (files w)) in
  let fetch := PyStr.truthy_opt og_image_url && negb (image_stored filename written) in
  let stored := if fetch then downloaded image filename written else written in
  ∃ w', persist_page url log_directory title_search title_replace title body og_image_url w
        = (Ret tt, w')
        ∧ files w' = <[ successes := default EmptyString (stored !! successes)
                                     +:+ csv_row [url; "200"; strftime_now] ]> stored
        ∧ requests w' = requests w ++ (if fetch then [image] else []).
Proof.
  intros title' filename image successes written fetch stored.
  unfold persist_page. fold title'. fold (final_title title title_search title_replace).
  fold title'. fold filename. fold image.
  unfold save_url, Os.write_file, Os.print.
  unfold bind at 1 2 3. cbv beta iota.
  fold (text_artifact title' body).
  cbn [files dirs stdout requests]. fold written.
  destruct (PyStr.truthy_opt og_image_url) eqn:Hog.
  - unfold bind. cbv beta iota.
    match goal with |- context [save_image image filename ?w0] =>
      destruct (save_image_effect image filename w0) as (w1 & E1 & _ & H1)
    end.
    cbn [files requests] in H1.
    rewrite E1. cbv beta iota.
    match goal with |- context [log_successful_crawl url log_directory ?w0] =>
      destruct (log_successful_crawl_effect url log_directory w0) as (w2 & E2 & F2 & R2)
    end.
    rewrite E2. exists w2. split; [reflexivity|].
    cbn [files requests] in F2, R2. rewrite F2, R2.
    subst stored fetch. cbn [andb].
    destruct (image_stored filename written); cbn [negb];
      destruct H1 as [-> ->]; split; try reflexivity.
    by rewrite app_nil_r.
  - unfold bind. cbv beta iota.
    match goal with |- context [log_successful_crawl url log_directory ?w0] =>
      destruct (log_successful_crawl_effect url log_directory w0) as (w2 & E2 & F2 & R2)
    end.
    rewrite E2. exists w2. split; [reflexivity|].
    cbn [files requests] in F2, R2. rewrite F2, R2.
    subst stored fetch. cbn [andb]. split; [reflexivity | by rewrite app_nil_r].
Qed.

(** The files a successful crawl leaves, as far as the text artifact,
    the url sidecar and [successes.csv] go. *)
Lemma persist_page_lookups
    (url log_directory title_search title_replace title body : string)
    (og : option string) (w : World) :
  let title' := final_title title title_search title_replace in
  let filename := clean_filename title' in
  let successes := Os.path_join log_directory ["successes.csv"] in
  ∃ w', persist_page url log_directory title_search title_replace title body og w
        = (Ret tt, w')
        ∧ files w' !! data_path (filename +:+ ".txt") = Some (text_artifact title' body)
        ∧ files w' !! data_path (filename +:+ "-url.txt") = Some url
        ∧ files w' !! successes
          = Some (default EmptyString (files w !! successes)
                  +:+ csv_row [url; "200"; strftime_now]).
Proof.
  intros title' filename successes.
  destruct (persist_page_effect url log_directory title_search title_replace title body og w)
    as (w' & E & F & _).
  fold title' filename successes in F.
  exists w'. split; [exact E|]. rewrite F. clear E F.
  destruct (artifact_paths title' log_directory)
    as (Htu & Hts & Hus & Htp & Hup & Hst & Hsu & Hsp & Hss).
  fold filename successes in Htu, Hts, Hus, Htp, Hup, Hst, Hsu, Hsp, Hss.
  set (txt := data_path (filename +:+ ".txt")) in *.
  set (urlp := data_path (filename +:+ "-url.txt")) in *.
  set (png := data_path (filename +:+ ".png")) in *.
  set (side := data_path (filename +:+ "-image.txt")) in *.
  assert (Hstored : ∀ p, p ≠ png → p ≠ side →
            (if PyStr.truthy_opt og
                && negb (image_stored filename
                           (<[urlp:=url]> (<[txt:=text_artifact title' body]> (files w))))
             then downloaded (urljoin url (default EmptyString og)) filename
                    (<[urlp:=url]> (<[txt:=text_artifact title' body]> (files w)))
             else <[urlp:=url]> (<[txt:=text_artifact title' body]> (files w))) !! p
            = <[urlp:=url]> (<[txt:=text_artifact title' body]> (files w)) !! p).
  { intros p Hp1 Hp2. destruct (_ && _); [by apply downloaded_other | done]. }
  split; [|split].
  - rewrite lookup_insert_ne by done. rewrite Hstored by done.
    rewrite lookup_insert_ne by done. apply lookup_insert_eq.
  - rewrite lookup_insert_ne by done. rewrite Hstored by done.
    apply lookup_insert_eq.
  - rewrite lookup_insert_eq. rewrite Hstored by done.
    by rewrite !lookup_insert_ne by done.
Qed.

Lemma crawl_page_with_rule_unfold
    (url log_directory title_search title_replace rule : string) (w w1 : World)
    (title body og : option string) :
  get_page_content_with_rule url title_search rule w = (Ret (title, body, og), w1) →
  crawl_page_with_rule url log_directory title_search title_replace rule w
  = if PyStr.truthy_opt title && PyStr.truthy_opt body
    then persist_page url log_directory title_search title_replace
           (default EmptyString title) (default EmptyString body) og w1
    else report_failure url log_directory w1.
Proof.
  intros E. unfold crawl_page_with_rule, bind. rewrite E. cbv beta iota.
  by destruct (PyStr.truthy_opt title && PyStr.truthy_opt body).
Qed.

(** When the fetch fails, [crawl_page_with_rule] returns without
    raising, has asked the network once, and has changed one file only,
    [fails.txt], by appending the url and a line feed. *)
Lemma failed_fetch_effect
    (url log_directory title_search title_replace rule : string) (w : World) :
  fetch_fails (http url) →
  ∃ w', crawl_page_with_rule url log_directory title_search title_replace rule w
        = (Ret tt, w')
        ∧ files w'
          = <[ Os.path_join log_directory ["fails.txt"] :=
                 default EmptyString (files w !! Os.path_join log_directory ["fails.txt"])
                 +:+ url +:+ Os.NL ]> (files w)
        ∧ requests w' = requests w ++ [url].
Proof.
  intros Hfail.
  pose proof (get_page_content_with_rule_failed url title_search rule w Hfail) as E1.
  destruct (get_page_content_with_rule_world url title_search rule w) as (Hf & _ & Hr).
  destruct (get_page_content_with_rule url title_search rule w) as [r w1] eqn:E.
  cbn [fst snd] in *. subst r.
  rewrite (crawl_page_with_rule_unfold _ _ _ _ _ _ _ _ _ _ E).
  cbn [PyStr.truthy_opt andb].
  destruct (report_failure_effect url log_directory w1) as (w' & Er & Ff & Rr).
  exists w'. split; [exact Er|]. rewrite Ff, Rr, Hf, Hr. done.
Qed.

End Effects.

(** ** [crawl_page_with_rule] *)

Section Pipeline.
Context {pf : Platform}.

(** C9.  After a successful crawl (title and body both non-empty) the
    file [<filename>.txt] in the data directory holds the transformed,
    stripped title, a line of three dashes and the body, each ended by a
    line feed, and [<filename>-url.txt] holds the crawled url; [filename]
    is the cleaned final title. *)
Theorem text_artifact_and_url_sidecar
    (url log_directory title_search title_replace rule title body : string)
    (og : option string) (w w1 : World) :
  get_page_content_with_rule url title_search rule w
  = (Ret (Some title, Some body, og), w1) →
  title ≠ EmptyString →
  body ≠ EmptyString →
  ∃ w', crawl_page_with_rule url log_directory title_search title_replace rule w
        = (Ret tt, w')
        ∧ files w' !! data_path
            (clean_filename (PyStr.strip (apply_title_transform title title_search title_replace))
             +:+ ".txt")
          = Some (PyStr.strip (apply_title_transform title title_search title_replace)
                  +:+ Os.NL +:+ "---" +:+ Os.NL +:+ body +:+ Os.NL)
        ∧ files w' !! data_path
            (clean_filename (PyStr.strip (apply_title_transform title title_search title_replace))
             +:+ "-url.txt")
          = Some url.
Proof.
  intros E Ht Hb.
  rewrite (crawl_page_with_rule_unfold _ _ _ _ _ _ _ _ _ _ E).
  cbn [PyStr.truthy_opt default]. rewrite (truthy_ne _ Ht), (truthy_ne _ Hb). cbn [andb].
  destruct (persist_page_lookups url log_directory title_search title_replace title body og w1)
    as (w' & Ep & Ftxt & Furl & _).
  exists w'. split; [exact Ep|]. split; [exact Ftxt | exact Furl].
Qed.

(** C1, as the code has it.  The crawl counts as a success exactly when
    the title and the body that extraction returned are both non-empty
    strings; the sentinels are non-empty strings like any other.  Then the
    text artifact is written and a row is added to [successes.csv].
    Otherwise, also when a title was found but the body is absent or
    empty, the url is appended to [fails.txt] and no other file changes. *)
Theorem success_needs_nonempty_title_and_body
    (url log_directory title_search title_replace rule : string)
    (title body og : option string) (w w1 : World) :
  get_page_content_with_rule url title_search rule w = (Ret (title, body, og), w1) →
  ∃ w', crawl_page_with_rule url log_directory title_search title_replace rule w
        = (Ret tt, w')
        ∧ if PyStr.truthy_opt title && PyStr.truthy_opt body
          then
            is_Some (files w' !! data_path
                       (clean_filename
                          (final_title (default EmptyString title) title_search title_replace)
                        +:+ ".txt"))
            ∧ files w' !! Os.path_join log_directory ["successes.csv"]
              = Some (default EmptyString (files w !! Os.path_join log_directory ["successes.csv"])
                      +:+ csv_row [url; "200"; strftime_now])
          else
            files w'
            = <[ Os.path_join log_directory ["fails.txt"] :=
                   default EmptyString (files w !! Os.path_join log_directory ["fails.txt"])
                   +:+ url +:+ Os.NL ]> (files w).
Proof.
  intros E.
  rewrite (crawl_page_with_rule_unfold _ _ _ _ _ _ _ _ _ _ E).
  destruct (get_page_content_with_rule_world url title_search rule w) as (Hf & _ & _).
  rewrite E in Hf. cbn [snd] in Hf.
  destruct (PyStr.truthy_opt title && PyStr.truthy_opt body).
  - destruct (persist_page_lookups url log_directory title_search title_replace
                (default EmptyString title) (default EmptyString body) og w1)
      as (w' & Ep & Ftxt & _ & Fs).
    exists w'. split; [exact Ep|]. split; [by rewrite Ftxt | by rewrite Fs, Hf].
  - destruct (report_failure_effect url log_directory w1) as (w' & Er & Ff & _).
    exists w'. split; [exact Er|]. by rewrite Ff, Hf.
Qed.


(** C7, as the code has it.  For a page fetched with status 200 whose
    extraction gives a non-empty title and body, the image address
    extracted is the [content] attribute of the first [og:image] meta
    element, and is absent exactly when there is no such element.  The
    crawl resolves it with [urljoin] against the url it was called with;
    the address the answer came from plays no part.  With no image stored
    yet, that resolved address is the one requested, and the one written
    to the image sidecar when the download is answered with status 200. *)
Theorem image_resolved_against_request_url
    (url log_dir title_search title_replace rule title body : string)
    (og : option string) (response : Response) (w : World) :
  http url = HttpOk response →
  status_code response = 200%Z →
  extract_page (soup_of_content response) rule = Ret (title, body, og) →
  title ≠ EmptyString →
  body ≠ EmptyString →
  image_stored (clean_filename (final_title title title_search title_replace)) (files w)
  = false →
  found_content (Bs4.find "meta" [("property", "og:image")] (soup_of_content response))
  = Some <$> og
  ∧ ∃ w', crawl_page_with_rule url log_dir title_search title_replace rule w = (Ret tt, w')
          ∧ requests w'
            = requests w
              ++ url :: (if PyStr.truthy_opt og
                         then [urljoin url (default EmptyString og)] else [])
          ∧ (PyStr.truthy_opt og = true →
             ∀ answer, http (urljoin url (default EmptyString og)) = HttpOk answer →
                       status_code answer = 200%Z →
                       files w' !! data_path
                         (clean_filename (final_title title title_search title_replace)
                          +:+ "-image.txt")
                       = Some (urljoin url (default EmptyString og))).
Proof.
  intros Hhttp Hstatus Hextract Ht Hb Hstored. split.
  - (* the third component is the content attribute *)
    unfold extract_page in Hextract.
    destruct (rule_body_text _ _) as [b0|]; [|done]. cbn [result_bind] in Hextract.
    destruct (if negb (PyStr.truthy b0) then _ else _) as [b1|]; [|done].
    cbn [result_bind] in Hextract.
    destruct (Bs4.find "meta" [("property", "og:image")] _) as [tag|]; cbn.
    + destruct tag as [s|name a cs]; cbn in Hextract; [done|].
      destruct (a !! "content") as [c|]; cbn in Hextract; [|done].
      by injection Hextract as <- <- <-.
    + by injection Hextract as <- <- <-.
  - assert (E : get_page_content_with_rule url title_search rule w
                = (Ret (Some title, Some body, og),
                   {| files := files w; dirs := dirs w; stdout := stdout w;
                      requests := requests w ++ [url] |})).
    { unfold get_page_content_with_rule, bind, requests_get, lift, ret.
      rewrite Hhttp, Hstatus. cbn [Z.eqb]. rewrite Pos.eqb_refl.
      cbn [files dirs stdout requests]. by rewrite Hextract. }
    rewrite (crawl_page_with_rule_unfold _ _ _ _ _ _ _ _ _ _ E).
    cbn [PyStr.truthy_opt default]. rewrite (truthy_ne _ Ht), (truthy_ne _ Hb). cbn [andb].
    destruct (persist_page_effect url log_dir title_search title_replace title body og
                {| files := files w; dirs := dirs w; stdout := stdout w;
                   requests := requests w ++ [url] |}) as (w' & Ep & Ff & Rr).
    cbv zeta in Ff, Rr. cbn [files requests] in Ff, Rr.
    set (filename := clean_filename (final_title title title_search title_replace)) in *.
    destruct (artifact_paths (final_title title title_search title_replace) log_dir)
      as (Htu & Hts & Hus & Htp & Hup & Hst & Hsu & Hsp & Hss).
    fold filename in Htu, Hts, Hus, Htp, Hup, Hst, Hsu, Hsp, Hss.
    rewrite !image_stored_other in Ff, Rr by done.
    rewrite Hstored in Ff, Rr. cbn [negb] in Ff, Rr. rewrite andb_true_r in Ff, Rr.
    exists w'. split; [exact Ep|]. split.
    + rewrite Rr, <- app_assoc. done.
    + intros Hog answer Ha Hs. rewrite Ff, Hog.
      rewrite lookup_insert_ne by done.
      unfold downloaded. rewrite Ha, Hs. cbn [Z.eqb]. rewrite Pos.eqb_refl.
      apply lookup_insert_eq.
Qed.

End Pipeline.

(** ** The dispatch loop *)

Module OrchestratorFacts.
Import Orchestrator.

Section Executions.
Context {pf : Platform}.
Variables (max_threads : nat) (title_search title_replace : string).

Local Abbreviation step := (step title_search title_replace).
Local Abbreviation run := (run title_search title_replace).
Local Abbreviation invariant := (invariant max_threads).

Lemma run_app (a b : list actor) (s : state) :
  run (a ++ b) s
  = match run a s with
    | Some (t1, s1) =>
        match run b s1 with
        | Some (t2, s2) => Some (t1 ++ t2, s2)
        | None => None
        end
    | None => None
    end.
Proof.
  revert s. induction a as [|x a IH]; intros s; cbn [app Orchestrator.run].
  - by destruct (run b s) as [[t2 s2]|].
  - destruct (step x s) as [[e s']|]; [|done].
    rewrite IH. destruct (run a s') as [[t1 s1]|]; [|done].
    by destruct (run b s1) as [[t2 s2]|].
Qed.

Lemma dispatcher_events_app (t1 t2 : list event) :
  dispatcher_events (t1 ++ t2) = dispatcher_events t1 ++ dispatcher_events t2.
Proof. unfold dispatcher_events. induction t1 as [|e t1 IH]; [done|]. cbn. destruct (negb _); cbn; by rewrite IH. Qed.

(** A worker's step touches its own thread and the world, nothing of
    the dispatcher. *)
Lemma worker_step_frame (i : nat) (s s' : state) (e : event) :
  step (Worker i) s = Some (e, s') →
  e = EvFinish i
  ∧ at_pc s' = at_pc s ∧ pending s' = pending s ∧ semaphore s' = semaphore s
  ∧ ∃ t, threads s !! i = Some t ∧ finished t = false
         ∧ threads s' = <[ i := finish t ]> (threads s).
Proof.
  cbn [Orchestrator.step]. unfold worker_step.
  destruct (threads s !! i) as [t|] eqn:E; [|done].
  destruct (finished t) eqn:F; [done|].
  intros [= <- <-]. cbn. eauto 10.
Qed.

Lemma map_target_url_finish (l : list thread) (i : nat) (t : thread) :
  l !! i = Some t → map target_url (<[ i := finish t ]> l) = map target_url l.
Proof.
  intros E. change (map target_url) with (fmap (M:=list) target_url).
  rewrite list_fmap_insert. cbn [finish target_url].
  apply list_insert_id. by rewrite list_lookup_fmap, E.
Qed.

Lemma finished_after_finish (l : list thread) (i j : nat) (t t' : thread) :
  l !! i = Some t → <[ i := finish t ]> l !! j = Some t' →
  (l !! j = Some t' ∨ finished t' = true).
Proof.
  intros E H. destruct (decide (i = j)) as [->|Hne].
  - rewrite list_lookup_insert_eq in H by (by eapply lookup_lt_Some).
    injection H as <-. by right.
  - rewrite list_lookup_insert_ne in H by done. by left.
Qed.

(** Each step keeps the invariant; a dispatcher step consumes the next
    event of the program order. *)
Lemma step_invariant (urls : list string) (a : actor) (s s' : state) (e : event)
    (past : list event) :
  invariant urls s past → step a s = Some (e, s') →
  invariant urls s' (past ++ dispatcher_events [e]).
Proof.
  intros (Hord & Hurls & Hpc) Hstep. destruct a as [|i].
  - (* the dispatcher *)
    cbn [Orchestrator.step] in Hstep. unfold dispatcher_step in Hstep.
    unfold Orchestrator.invariant, remaining, in_hand in *.
    destruct (at_pc s) eqn:Epc.
    + (* acquire *)
      destruct (pending s) as [|url rest] eqn:Ep; [done|].
      destruct (semaphore s) as [|n] eqn:Es; [done|].
      injection Hstep as <- <-. cbn.
      rewrite <- app_assoc. cbn. split; [exact Hord|]. split; [exact Hurls | by destruct Hpc].
    + (* start *)
      injection Hstep as <- <-. cbn.
      rewrite <- app_assoc. cbn. split; [exact Hord|]. split; [|exact Hpc].
      rewrite map_app. cbn. by rewrite <- app_assoc.
    + (* sleep *)
      injection Hstep as <- <-. cbn.
      rewrite <- app_assoc. cbn. split; [exact Hord|]. split; [exact Hurls | exact Hpc].
    + (* release *)
      injection Hstep as <- <-. cbn.
      rewrite <- app_assoc. cbn.
      destruct (pending s) as [|url rest] eqn:Ep; cbn.
      * rewrite Nat.sub_0_r. split; [exact Hord|]. split; [exact Hurls|].
        repeat split; [exact Hpc | lia | intros; lia].
      * split; [exact Hord|]. split; [exact Hurls|]. by split.
    + (* join, or return *)
      destruct Hpc as (Hsem & Hp & Hi & Hfin). rewrite Hp in Hurls.
      cbn in Hurls. rewrite app_nil_r in Hurls.
      assert (Hlen : length (threads s) = length urls) by (by rewrite <- Hurls, length_map).
      destruct (threads s !! i) as [t|] eqn:Et.
      * destruct (finished t) eqn:Ft; [|done].
        injection Hstep as <- <-. cbn.
        apply lookup_lt_Some in Et as Hlt.
        replace (length urls - i) with (S (length urls - S i)) in Hord by lia.
        cbn in Hord. rewrite <- app_assoc. cbn.
        split; [exact Hord|]. rewrite Hp. cbn. rewrite app_nil_r.
        split; [exact Hurls|]. repeat split; [done | lia |].
        intros j t' Hj Ej. destruct (decide (j = i)) as [->|]; [congruence|].
        apply (Hfin j); [lia | done].
      * injection Hstep as <- <-. cbn.
        apply lookup_ge_None in Et.
        replace (length urls - i) with 0 in Hord by lia. cbn in Hord.
        rewrite <- app_assoc. cbn.
        split; [exact Hord|]. rewrite Hp. cbn. rewrite app_nil_r.
        split; [exact Hurls|]. repeat split; [done|].
        intros j t' Ej. apply (Hfin j); [|done].
        apply lookup_lt_Some in Ej. lia.
    + done.
  - (* a worker *)
    destruct (worker_step_frame _ _ _ _ Hstep) as (-> & Hpc' & Hp' & Hs' & t & Et & _ & Hth).
    cbn. rewrite app_nil_r.
    unfold Orchestrator.invariant, remaining, in_hand in *.
    rewrite Hpc', Hp', Hs', Hth. rewrite (map_target_url_finish _ _ _ Et).
    split; [exact Hord|]. split; [exact Hurls|].
    destruct (at_pc s); try exact Hpc.
    + destruct Hpc as (? & ? & ? & Hfin). rewrite length_insert. repeat split; try done.
      intros j t' Hj Ej. destruct (finished_after_finish _ _ _ _ _ Et Ej); [eauto | done].
    + destruct Hpc as (? & ? & Hfin). repeat split; try done.
      intros j t' Ej. destruct (finished_after_finish _ _ _ _ _ Et Ej); [eauto | done].
Qed.

Lemma run_invariant (urls : list string) (schedule : list actor) (s s' : state)
    (past trace : list event) :
  invariant urls s past → run schedule s = Some (trace, s') →
  invariant urls s' (past ++ dispatcher_events trace).
Proof.
  revert s past trace. induction schedule as [|a schedule IH]; intros s past trace Hinv Hrun.
  - injection Hrun as <- <-. cbn. by rewrite app_nil_r.
  - cbn [Orchestrator.run] in Hrun.
    destruct (step a s) as [[e s1]|] eqn:Es; [|done].
    destruct (run schedule s1) as [[tr s2]|] eqn:Er; [|done].
    injection Hrun as <- <-.
    change (e :: tr) with ([e] ++ tr). rewrite dispatcher_events_app, app_assoc.
    eapply IH; [|exact Er]. by eapply step_invariant.
Qed.

Lemma initial_invariant (urls : list string) (w : World) :
  invariant urls (initial max_threads urls w) [].
Proof.
  unfold Orchestrator.invariant, remaining, in_hand, initial, program_order. cbn.
  destruct urls as [|url urls]; cbn.
  - repeat split; [lia | intros; lia].
  - by repeat split.
Qed.

(** With a semaphore that is not empty, the dispatcher runs through the
    for loop without a worker moving: every url gets its thread. *)
Lemma run_dispatcher_only (urls : list string) (s : state) (n : nat) :
  at_pc s = loop_head urls → pending s = urls → semaphore s = S n →
  run (dispatcher_only urls) s
  = Some (flat_map iteration urls,
          {| at_pc := AtJoin 0; pending := []; semaphore := S n;
             threads := threads s ++ map new_thread urls; world := world s |}).
Proof.
  revert s. induction urls as [|url urls IH]; intros s Hpc Hp Hs.
  - destruct s as [pc0 p0 sem0 th0 w0]. cbn in *. subst. by rewrite app_nil_r.
  - cbn [dispatcher_only flat_map app].
    cbn [Orchestrator.run Orchestrator.step].
    unfold dispatcher_step at 1. rewrite Hpc, Hp, Hs. cbn [loop_head].
    unfold dispatcher_step at 1. cbn [at_pc pending semaphore threads world].
    unfold dispatcher_step at 1. cbn [at_pc pending semaphore threads world].
    unfold dispatcher_step at 1. cbn [at_pc pending semaphore threads world].
    fold (dispatcher_only urls).
    match goal with |- context [Orchestrator.run _ _ _ ?s1] =>
      rewrite (IH s1) by reflexivity
    end.
    cbn [at_pc pending semaphore threads world flat_map iteration app].
    by rewrite <- app_assoc.
Qed.

Lemma running_new_threads (urls : list string) :
  length (List.filter (λ t, negb (finished t)) (map new_thread urls)) = length urls.
Proof. induction urls as [|url urls IH]; [done|]. cbn. by rewrite IH. Qed.

End Executions.



End OrchestratorFacts.

(** ** The scenarios *)

Module Scenarios.
Import Orchestrator.

(** C1: a page with no heading, no description and no paragraph yields
    the two sentinels, and the crawl treats it as a success: the artifact
    [No Title.txt] is written, [successes.csv] gets its row and
    [fails.txt] is not written. *)
Lemma sentinel_page_is_persisted :
  (get_page_content_with_rule (pf := Demo.platform)
     "https://example.com/empty" EmptyString EmptyString Demo.fresh).1
  = Ret (Some "No Title", Some "No Body", None)
  ∧ (crawl_page_with_rule (pf := Demo.platform)
       "https://example.com/empty" Demo.logs EmptyString EmptyString EmptyString Demo.fresh).1
    = Ret tt
  ∧ files (crawl_page_with_rule (pf := Demo.platform)
             "https://example.com/empty" Demo.logs EmptyString EmptyString EmptyString
             Demo.fresh).2
    !! "/srv/crawler/results/2024-02-03/fails.txt" = None
  ∧ files (crawl_page_with_rule (pf := Demo.platform)
             "https://example.com/empty" Demo.logs EmptyString EmptyString EmptyString
             Demo.fresh).2
    !! "/srv/crawler/data/No Title.txt"
    = Some ("No Title" +:+ Os.NL +:+ "---" +:+ Os.NL +:+ "No Body" +:+ Os.NL)
  ∧ files (crawl_page_with_rule (pf := Demo.platform)
             "https://example.com/empty" Demo.logs EmptyString EmptyString EmptyString
             Demo.fresh).2
    !! "/srv/crawler/results/2024-02-03/successes.csv"
    = Some (csv_row ["https://example.com/empty"; "200"; "2024-02-03 12:00:00"]).
Proof. repeat split; vm_compute; reflexivity. Qed.

(** C1: a heading over an empty paragraph.  The title is found, the body
    is empty, and the url goes to [fails.txt]. *)
Lemma success_needs_nonempty_title_and_body_witness :
  get_page_content_with_rule (pf := Demo.platform)
    "https://example.com/title-only" EmptyString EmptyString Demo.fresh
  = (Ret (Some "Only a title", Some EmptyString, None),
     {| files := ∅; dirs := ∅; stdout := [];
        requests := ["https://example.com/title-only"] |})
  ∧ ∃ w', crawl_page_with_rule (pf := Demo.platform)
            "https://example.com/title-only" Demo.logs EmptyString EmptyString EmptyString
            Demo.fresh
          = (Ret tt, w')
          ∧ files w'
            = <[ "/srv/crawler/results/2024-02-03/fails.txt" :=
                   "https://example.com/title-only" +:+ Os.NL ]> ∅.
Proof.
  split; [vm_compute; reflexivity|].
  exact (success_needs_nonempty_title_and_body (pf := Demo.platform)
           "https://example.com/title-only" Demo.logs EmptyString EmptyString EmptyString
           (Some "Only a title") (Some EmptyString) None Demo.fresh
           {| files := ∅; dirs := ∅; stdout := [];
              requests := ["https://example.com/title-only"] |}
           eq_refl).
Defined.

(** C9: the page of the end-to-end scenario. *)
Lemma text_artifact_and_url_sidecar_witness :
  get_page_content_with_rule (pf := Demo.platform)
    "https://example.com/a" EmptyString EmptyString Demo.fresh
  = (Ret (Some "Title A", Some "Body A", Some "/img.png"),
     {| files := ∅; dirs := ∅; stdout := []; requests := ["https://example.com/a"] |})
  ∧ ∃ w', crawl_page_with_rule (pf := Demo.platform)
            "https://example.com/a" Demo.logs EmptyString EmptyString EmptyString Demo.fresh
          = (Ret tt, w')
          ∧ files w' !! "/srv/crawler/data/Title A.txt"
            = Some ("Title A" +:+ Os.NL +:+ "---" +:+ Os.NL +:+ "Body A" +:+ Os.NL)
          ∧ files w' !! "/srv/crawler/data/Title A-url.txt" = Some "https://example.com/a".
Proof.
  split; [vm_compute; reflexivity|].
  refine (text_artifact_and_url_sidecar (pf := Demo.platform)
            "https://example.com/a" Demo.logs EmptyString EmptyString EmptyString
            "Title A" "Body A" (Some "/img.png") Demo.fresh
            {| files := ∅; dirs := ∅; stdout := []; requests := ["https://example.com/a"] |}
            eq_refl _ _); discriminate.
Defined.


(** C6: a description whose content holds tags.  No rule is configured
    and the description is there, yet the body is not the stripped
    content: the tags are cut out of it. *)
Lemma description_with_tags_is_cleaned :
  found_content (Bs4.find "meta" [("name", "description")] Demo.page_description_markup)
  = Some (Some "a <b>bold</b> c")
  ∧ PyStr.strip "a <b>bold</b> c" = "a <b>bold</b> c"
  ∧ extract_page (pf := Demo.platform) Demo.page_description_markup EmptyString
    = Ret ("T", "a bold c", None)
  ∧ "a bold c" ≠ PyStr.strip "a <b>bold</b> c".
Proof. repeat split; try (vm_compute; reflexivity). vm_compute. discriminate. Qed.

Lemma body_follows_fallback_chain_witness :
  (EmptyString = EmptyString
   ∨ ∃ elements,
       soup_select (Platform := Demo.platform) EmptyString Demo.page_description_markup
       = Ret elements
       ∧ PyStr.join " " (map Bs4.get_text elements) = EmptyString)
  ∧ content_if_found (Bs4.find "meta" [("name", "description")] Demo.page_description_markup)
  ∧ content_if_found (Bs4.find "meta" [("property", "og:image")] Demo.page_description_markup)
  ∧ ∃ og, extract_page (pf := Demo.platform) Demo.page_description_markup EmptyString
          = Ret ("T", "a bold c", og).
Proof.
  split; [left; reflexivity|].
  split; [vm_compute; discriminate|].
  split; [vm_compute; discriminate|].
  refine (proj1 (body_follows_fallback_chain (pf := Demo.platform)
                   Demo.page_description_markup EmptyString (or_introl eq_refl) _ _));
    vm_compute; discriminate.
Defined.

(** C7: a page answered from another address than the one asked for.
    The relative image address is resolved against the url that was
    asked for, not against the address the answer came from. *)
Lemma image_not_resolved_against_response_url :
  http (Platform := Demo.platform) "https://example.com/moved"
  = Demo.ok "https://cdn.example.org/new/page" Demo.page_relative_image
  ∧ extract_page (pf := Demo.platform) Demo.page_relative_image EmptyString
    = Ret ("Moved", "Body", Some "img.png")
  ∧ urljoin (Platform := Demo.platform) "https://cdn.example.org/new/page" "img.png"
    = "https://cdn.example.org/new/img.png"
  ∧ requests (crawl_page_with_rule (pf := Demo.platform)
                "https://example.com/moved" Demo.logs EmptyString EmptyString EmptyString
                Demo.fresh).2
    = ["https://example.com/moved"; "https://example.com/img.png"]
  ∧ files (crawl_page_with_rule (pf := Demo.platform)
             "https://example.com/moved" Demo.logs EmptyString EmptyString EmptyString
             Demo.fresh).2
    !! "/srv/crawler/data/Moved-image.txt" = Some "https://example.com/img.png".
Proof. repeat split; vm_compute; reflexivity. Qed.

Lemma image_resolved_against_request_url_witness :
  http (Platform := Demo.platform) "https://example.com/a"
  = Demo.ok "https://example.com/a" Demo.page_a
  ∧ extract_page (pf := Demo.platform) Demo.page_a EmptyString
    = Ret ("Title A", "Body A", Some "/img.png")
  ∧ image_stored (pf := Demo.platform) "Title A" ∅ = false
  ∧ ∃ w', crawl_page_with_rule (pf := Demo.platform)
            "https://example.com/a" Demo.logs EmptyString EmptyString EmptyString Demo.fresh
          = (Ret tt, w')
          ∧ requests w' = ["https://example.com/a"; "https://example.com/img.png"]
          ∧ files w' !! "/srv/crawler/data/Title A-image.txt"
            = Some "https://example.com/img.png".
Proof.
  split; [reflexivity|]. split; [vm_compute; reflexivity|]. split; [reflexivity|].
  destruct (image_resolved_against_request_url (pf := Demo.platform)
              "https://example.com/a" Demo.logs EmptyString EmptyString EmptyString
              "Title A" "Body A" (Some "/img.png")
              {| status_code := 200; response_url := "https://example.com/a";
                 content := EmptyString; soup_of_content := Demo.page_a |}
              Demo.fresh eq_refl eq_refl eq_refl
              ltac:(discriminate) ltac:(discriminate) eq_refl)
    as (_ & w' & E & R & S).
  exists w'. split; [exact E|]. split; [exact R|].
  exact (S eq_refl (Build_Response 200 "https://example.com/img.png" "PNG-BYTES"
                      (Demo.document [Demo.text "PNG-BYTES"])) eq_refl eq_refl).
Defined.



(** A complete run of the two urls: the dispatcher's events are the
    program order, and both workers ran while the semaphore had one
    unit. *)
Example two_urls_one_unit :
  run (pf := Demo.platform) EmptyString EmptyString
    (dispatcher_only
       ["https://example.com/a"; "https://slow.example.com/"]
     ++ [Worker 1; Worker 0; Dispatcher; Dispatcher; Dispatcher])
    (initial (pf := Demo.platform) 1
       ["https://example.com/a"; "https://slow.example.com/"] Demo.fresh)
  = Some
      ([EvAcquire; EvStart "https://example.com/a"; EvSleep 0; EvRelease;
        EvAcquire; EvStart "https://slow.example.com/"; EvSleep 0; EvRelease;
        EvFinish 1; EvFinish 0; EvJoin 0; EvJoin 1; EvReturn],
       (default ([], initial (pf := Demo.platform) 1 [] Demo.fresh)
          (run (pf := Demo.platform) EmptyString EmptyString
             (dispatcher_only
                ["https://example.com/a"; "https://slow.example.com/"]
              ++ [Worker 1; Worker 0; Dispatcher; Dispatcher; Dispatcher])
             (initial (pf := Demo.platform) 1
                ["https://example.com/a"; "https://slow.example.com/"] Demo.fresh))).2).
Proof. vm_compute. reflexivity. Qed.

End Scenarios.

(** * Further properties *)

(** ** File names and titles *)

Lemma filter_app keep (a b : string) :
  PyStr.filter keep (a +:+ b) = PyStr.filter keep a +:+ PyStr.filter keep b.
Proof.
  induction a as [|c a IH]; [reflexivity|].
  rewrite app_cons_s, !filter_cons. destruct (keep c); [|exact IH].
  rewrite app_cons_s. by rewrite IH.
Qed.

(** X1.  [clean_filename] leaves no character of the class in the file
    name, changes nothing else (a title without such characters is
    returned as it is, and cleaning goes through concatenation part by
    part), and cleaning twice is cleaning once. *)
Theorem clean_filename_profile (title rest : string) :
  (∀ c, PyStr.mem c Re.invalid_chars = true → PyStr.mem c (clean_filename title) = false)
  ∧ (∀ c, PyStr.mem c Re.invalid_chars = false →
          PyStr.mem c (clean_filename title) = PyStr.mem c title)
  ∧ clean_filename (title +:+ rest) = clean_filename title +:+ clean_filename rest
  ∧ clean_filename (clean_filename title) = clean_filename title
  ∧ ((∀ c, PyStr.mem c title = true → PyStr.mem c Re.invalid_chars = false) →
     clean_filename title = title).
Proof.
  unfold clean_filename, Re.sub_invalid_chars.
  split; [|split; [|split; [|split]]].
  - intros c Hc. rewrite mem_filter, Hc. apply andb_false_r.
  - intros c Hc. rewrite mem_filter, Hc. apply andb_true_r.
  - apply filter_app.
  - apply filter_filter.
  - intros Hc. apply filter_id. intros c Hm. by rewrite (Hc c Hm).
Qed.

Lemma interleave_empty (s : string) : PyStr.interleave EmptyString s = s.
Proof.
  induction s as [|c s IH]; [reflexivity|].
  cbn [PyStr.interleave]. rewrite app_nil_l_s. by rewrite IH.
Qed.

Lemma find_none_cons (old : string) (c : ascii) (r : string) :
  PyStr.find old (String c r) = None →
  PyStr.startswith old (String c r) = false ∧ PyStr.find old r = None.
Proof.
  cbn [PyStr.find]. destruct (PyStr.startswith old (String c r)); [done|].
  destruct (PyStr.find old r); [done|]. by split.
Qed.

Lemma replace_scan_absent (old new s : string) :
  PyStr.find old s = None → PyStr.replace_scan old new 0 s = s.
Proof.
  induction s as [|c s IH]; [reflexivity|].
  intros H. destruct (find_none_cons _ _ _ H) as [Hs Hf].
  cbn [PyStr.replace_scan]. rewrite Hs. by rewrite IH.
Qed.

(** X2.  The title transform with the default settings (empty search,
    empty replacement) returns the title unchanged, and so does any
    search text that does not occur in the title. *)
Theorem title_transform_unchanged (title : string) :
  apply_title_transform title EmptyString EmptyString = title
  ∧ ∀ title_search title_replace,
      PyStr.find title_search title = None →
      apply_title_transform title title_search title_replace = title.
Proof.
  unfold apply_title_transform, PyStr.replace. split.
  - apply interleave_empty.
  - intros old new H. destruct old as [|c old].
    + by destruct title.
    + by apply replace_scan_absent.
Qed.

(** ** The body text *)

Lemma sub_tag_scan_skip (k : nat) (s : string) :
  Re.sub_tag_scan k s = Re.sub_tag_scan 0 (PyStr.drop k s).
Proof.
  revert k. induction s as [|c s IH]; intros [|k]; try reflexivity.
  cbn [Re.sub_tag_scan PyStr.drop]. apply IH.
Qed.

Lemma sub_tag_scan_cons (c : ascii) (r : string) :
  Re.sub_tag_scan 0 (String c r)
  = if Ascii.eqb c "<" then
      match Re.find_gt r with
      | Some n => Re.sub_tag_scan 0 (PyStr.drop (S n) r)
      | None => String c (Re.sub_tag_scan 0 r)
      end
    else String c (Re.sub_tag_scan 0 r).
Proof.
  cbn [Re.sub_tag_scan]. destruct (Ascii.eqb c "<"); [|reflexivity].
  destruct (Re.find_gt r) as [n|]; [|reflexivity]. apply sub_tag_scan_skip.
Qed.

Lemma find_gt_cons (c : ascii) (r : string) :
  Re.find_gt (String c r)
  = if Ascii.eqb c ">" then Some 0
    else if Ascii.eqb c PyStr.LF then None else S <$> Re.find_gt r.
Proof. reflexivity. Qed.

Lemma length_drop_le (k : nat) (s : string) :
  String.length (PyStr.drop k s) ≤ String.length s.
Proof.
  revert k. induction s as [|c s IH]; intros [|k]; cbn; try lia.
  specialize (IH k). lia.
Qed.

(** Dropping a tag does not bring a [>] within reach: what the scan
    keeps of a line without [>] is a line without [>]. *)
Lemma find_gt_sub_tag_none (s : string) :
  Re.find_gt s = None → Re.find_gt (Re.sub_tag_scan 0 s) = None.
Proof.
  induction s as [|c s IH]; [done|].
  rewrite find_gt_cons, sub_tag_scan_cons.
  destruct (Ascii.eqb c ">") eqn:Egt; [done|].
  destruct (Ascii.eqb c PyStr.LF) eqn:Elf.
  - intros _. destruct (Ascii.eqb c "<") eqn:Elt.
    + apply Ascii.eqb_eq in Elf, Elt. subst c. discriminate Elt.
    + rewrite find_gt_cons, Egt, Elf. done.
  - destruct (Re.find_gt s) as [n|] eqn:Ef; [done|]. intros _.
    assert (Re.find_gt (String c (Re.sub_tag_scan 0 s)) = None) as Hk.
    { rewrite find_gt_cons, Egt, Elf, IH; done. }
    by destruct (Ascii.eqb c "<").
Qed.

Lemma has_tag_sub_tag_bounded (n : nat) (s : string) :
  String.length s ≤ n → has_tag (Re.sub_tag_scan 0 s) = false.
Proof.
  revert s. induction n as [|n IH]; intros [|c s] Hlen; cbn in Hlen; try done; try lia.
  rewrite sub_tag_scan_cons.
  assert (Hrest : has_tag (Re.sub_tag_scan 0 s) = false) by (apply IH; lia).
  destruct (Ascii.eqb c "<") eqn:Elt.
  - destruct (Re.find_gt s) as [k|] eqn:Ef.
    + apply IH. pose proof (length_drop_le (S k) s). lia.
    + cbn [has_tag]. rewrite Hrest, (find_gt_sub_tag_none _ Ef).
      rewrite bool_decide_false by (by intros [? ?]). by rewrite andb_false_r.
  - cbn [has_tag]. by rewrite Elt, Hrest.
Qed.

(** What [re.sub(r'<.*?>', '', s)] returns has no match of the pattern
    left. *)
Lemma has_tag_sub_tag (s : string) : has_tag (Re.sub_tag s) = false.
Proof. by apply (has_tag_sub_tag_bounded (String.length s)). Qed.

Lemma has_tag_cons (c : ascii) (r : string) :
  has_tag (String c r)
  = (Ascii.eqb c "<" && bool_decide (is_Some (Re.find_gt r))) || has_tag r.
Proof. reflexivity. Qed.

Lemma has_tag_lstrip (s : string) : has_tag s = false → has_tag (PyStr.lstrip s) = false.
Proof.
  induction s as [|c s IH]; [done|].
  intros H. cbn [PyStr.lstrip]. destruct (PyStr.isspace c); [|exact H].
  apply IH. cbn [has_tag] in H. by apply orb_false_elim in H as [_ H].
Qed.

Lemma rstrip_cons (c : ascii) (r : string) :
  PyStr.rstrip (String c r)
  = match PyStr.rstrip r with
    | EmptyString => if PyStr.isspace c then EmptyString else String c EmptyString
    | String _ _ => String c (PyStr.rstrip r)
    end.
Proof. cbn [PyStr.rstrip]. by destruct (PyStr.rstrip r). Qed.

Lemma find_gt_rstrip (s : string) :
  Re.find_gt s = None → Re.find_gt (PyStr.rstrip s) = None.
Proof.
  induction s as [|c s IH]; [done|].
  rewrite find_gt_cons, rstrip_cons.
  destruct (Ascii.eqb c ">") eqn:Egt; [done|].
  destruct (Ascii.eqb c PyStr.LF) eqn:Elf.
  - intros _. destruct (PyStr.rstrip s).
    + destruct (PyStr.isspace c); [done|]. by rewrite find_gt_cons, Egt, Elf.
    + by rewrite find_gt_cons, Egt, Elf.
  - destruct (Re.find_gt s) eqn:Ef; [done|]. intros _. specialize (IH eq_refl).
    destruct (PyStr.rstrip s) eqn:Er.
    + destruct (PyStr.isspace c); [done|]. by rewrite find_gt_cons, Egt, Elf.
    + by rewrite find_gt_cons, Egt, Elf, IH.
Qed.

Lemma has_tag_rstrip (s : string) : has_tag s = false → has_tag (PyStr.rstrip s) = false.
Proof.
  induction s as [|c s IH]; [done|].
  cbn [has_tag]. intros H. apply orb_false_elim in H as [Hc Hs].
  specialize (IH Hs). rewrite rstrip_cons.
  destruct (PyStr.rstrip s) eqn:Er.
  - destruct (PyStr.isspace c); [done|]. cbn. by rewrite andb_false_r.
  - rewrite (has_tag_cons c), IH, orb_false_r.
    destruct (Ascii.eqb c "<"); [|done]. cbn [andb] in *.
    apply bool_decide_eq_false in Hc. apply bool_decide_eq_false.
    intros Hsome. apply Hc. destruct (Re.find_gt s) eqn:Ef; [by eexists|].
    rewrite <- Er, (find_gt_rstrip _ Ef) in Hsome. by destruct Hsome.
Qed.

Lemma lstrip_starts_clean (s : string) : starts_clean (PyStr.lstrip s).
Proof.
  induction s as [|c s IH]; [done|].
  cbn [PyStr.lstrip]. destruct (PyStr.isspace c) eqn:E; [exact IH | exact E].
Qed.

Lemma rstrip_starts_clean (s : string) : starts_clean s → starts_clean (PyStr.rstrip s).
Proof.
  destruct s as [|c s]; [done|]. cbn [starts_clean]. intros H.
  rewrite rstrip_cons. destruct (PyStr.rstrip s); [by rewrite H | exact H].
Qed.

Lemma lstrip_clean (s : string) : starts_clean s → PyStr.lstrip s = s.
Proof. destruct s as [|c s]; [done|]. cbn. by intros ->. Qed.

Lemma rstrip_rstrip (s : string) : PyStr.rstrip (PyStr.rstrip s) = PyStr.rstrip s.
Proof.
  induction s as [|c s IH]; [done|].
  rewrite rstrip_cons. destruct (PyStr.rstrip s) as [|c' r'] eqn:Er.
  - destruct (PyStr.isspace c) eqn:E; [done|]. cbn. by rewrite E.
  - rewrite rstrip_cons, IH. done.
Qed.

Lemma strip_strip (s : string) : PyStr.strip (PyStr.strip s) = PyStr.strip s.
Proof.
  unfold PyStr.strip.
  rewrite (lstrip_clean (PyStr.rstrip (PyStr.lstrip s)))
    by apply rstrip_starts_clean, lstrip_starts_clean.
  apply rstrip_rstrip.
Qed.

Lemma last_rstrip (s : string) (c : ascii) :
  PyStr.last (PyStr.rstrip s) = Some c → PyStr.isspace c = false.
Proof.
  induction s as [|a s IH]; [done|].
  rewrite rstrip_cons. destruct (PyStr.rstrip s) as [|c' r'] eqn:Er.
  - destruct (PyStr.isspace a) eqn:E; [done|]. cbn. by intros [= <-].
  - cbn [PyStr.last]. exact IH.
Qed.

Lemma clean_body_text_clean (raw : string) :
  has_tag (clean_body_text raw) = false
  ∧ PyStr.strip (clean_body_text raw) = clean_body_text raw
  ∧ starts_clean (clean_body_text raw)
  ∧ ∀ c, PyStr.last (clean_body_text raw) = Some c → PyStr.isspace c = false.
Proof.
  unfold clean_body_text, PyStr.strip. repeat split.
  - apply has_tag_rstrip, has_tag_lstrip, has_tag_sub_tag.
  - apply (strip_strip (Re.sub_tag (Re.sub_script raw))).
  - apply rstrip_starts_clean, lstrip_starts_clean.
  - apply last_rstrip.
Qed.

Section BodyText.
Context {pf : Platform}.

Lemma extract_page_body (soup : Bs4.node) (rule title body : string) (og : option string) :
  extract_page soup rule = Ret (title, body, og) → ∃ raw, body = clean_body_text raw.
Proof.
  unfold extract_page.
  destruct (rule_body_text soup rule) as [b0|]; [|done]. cbn [result_bind].
  destruct (if negb (PyStr.truthy b0) then _ else _) as [b1|]; [|done]. cbn [result_bind].
  destruct (match Bs4.find "meta" [("property", "og:image")] soup with
            | Some tag => _ | None => _ end) as [o|]; [|done].
  cbn [result_bind]. intros [= <- <- <-]. by exists b1.
Qed.

(** X3.  Whatever extraction returns as the body has no tag left in it
    (no [<] with a [>] behind it on the same line) and neither starts nor
    ends with whitespace; stripping it again changes nothing. *)
Theorem body_is_clean (soup : Bs4.node) (rule title body : string) (og : option string) :
  extract_page soup rule = Ret (title, body, og) →
  has_tag body = false
  ∧ PyStr.strip body = body
  ∧ starts_clean body
  ∧ ∀ c, PyStr.last body = Some c → PyStr.isspace c = false.
Proof.
  intros E. destruct (extract_page_body _ _ _ _ _ E) as [raw ->].
  apply clean_body_text_clean.
Qed.

(** X4.  A configured rule that selects elements with some text decides
    the body: it is the selected texts joined by a space, cleaned, and
    neither the description nor the first paragraph is looked at, so a
    description element without [content] does no harm here. *)
Theorem rule_takes_precedence (soup : Bs4.node) (rule : string) (elements : list Bs4.node) :
  rule ≠ EmptyString →
  soup_select rule soup = Ret elements →
  PyStr.join " " (map Bs4.get_text elements) ≠ EmptyString →
  content_if_found (Bs4.find "meta" [("property", "og:image")] soup) →
  extract_page soup rule
  = Ret (title_of soup,
         clean_body_text (PyStr.join " " (map Bs4.get_text elements)),
         mjoin (found_content (Bs4.find "meta" [("property", "og:image")] soup))).
Proof.
  intros Hrule Hsel Htext Hog. unfold extract_page, rule_body_text.
  rewrite (truthy_ne _ Hrule), Hsel. cbn [result_bind].
  destruct elements as [|e elements]; [done|]. cbn [result_bind].
  rewrite (truthy_ne _ Htext). cbn [negb result_bind].
  rewrite (getitem_if_found _ Hog). done.
Qed.

(** X5.  One crawl asks the network at most twice, first for the page
    and then at most once for its image, whether it succeeds, fails or
    raises: nothing is asked for a second time. *)
Theorem crawl_asks_at_most_twice
    (url log_dir title_search title_replace rule : string) (w : World) :
  ∃ more,
    requests (crawl_page_with_rule url log_dir title_search title_replace rule w).2
    = requests w ++ url :: more
    ∧ length more ≤ 1.
Proof.
  destruct (get_page_content_with_rule_world url title_search rule w) as (_ & _ & Hr).
  destruct (get_page_content_with_rule url title_search rule w) as [[[[t b] og]|e] w1] eqn:E;
    cbn [snd] in Hr.
  - rewrite (crawl_page_with_rule_unfold _ _ _ _ _ _ _ _ _ _ E).
    destruct (PyStr.truthy_opt t && PyStr.truthy_opt b).
    + destruct (persist_page_effect url log_dir title_search title_replace
                  (default EmptyString t) (default EmptyString b) og w1)
        as (w' & -> & _ & Rr).
      cbn [snd]. rewrite Rr, Hr, <- app_assoc. eexists. split; [reflexivity|].
      destruct (_ && _); cbn; lia.
    + destruct (report_failure_effect url log_dir w1) as (w' & -> & _ & Rr).
      cbn [snd]. rewrite Rr, Hr. exists []. split; [reflexivity | cbn; lia].
  - unfold crawl_page_with_rule, bind. rewrite E. cbn [snd]. rewrite Hr.
    exists []. split; [reflexivity | cbn; lia].
Qed.

End BodyText.

(** ** Stored images *)

Section StoredImages.
Context {pf : Platform}.

Lemma get_page_content_with_rule_ok
    (url hostname rule title body : string) (og : option string)
    (response : Response) (w : World) :
  http url = HttpOk response →
  status_code response = 200%Z →
  extract_page (soup_of_content response) rule = Ret (title, body, og) →
  get_page_content_with_rule url hostname rule w
  = (Ret (Some title, Some body, og),
     {| files := files w; dirs := dirs w; stdout := stdout w;
        requests := requests w ++ [url] |}).
Proof.
  intros Hhttp Hstatus Hextract.
  unfold get_page_content_with_rule, bind, requests_get, lift, ret.
  rewrite Hhttp, Hstatus. cbn [Z.eqb]. rewrite Pos.eqb_refl.
  cbn [files dirs stdout requests]. by rewrite Hextract.
Qed.

Lemma image_stored_lookup (filename data : string) (fs : gmap string string) :
  fs !! data_path (filename +:+ ".png") = Some data → data ≠ EmptyString →
  image_stored filename fs = true.
Proof. intros E Hd. unfold image_stored. rewrite E. by apply truthy_ne. Qed.

(** A successful crawl over a stored image: the page is asked for, the
    image is not, and image and sidecar stay as they were. *)
Lemma crawl_keeps_stored_image
    (url log_dir title_search title_replace rule title body data : string)
    (og : option string) (w w1 : World) :
  get_page_content_with_rule url title_search rule w
  = (Ret (Some title, Some body, og), w1) →
  title ≠ EmptyString →
  body ≠ EmptyString →
  files w !! data_path
    (clean_filename (final_title title title_search title_replace) +:+ ".png")
  = Some data →
  data ≠ EmptyString →
  ∃ w', crawl_page_with_rule url log_dir title_search title_replace rule w = (Ret tt, w')
        ∧ requests w' = requests w ++ [url]
        ∧ files w' !! data_path
            (clean_filename (final_title title title_search title_replace) +:+ ".png")
          = Some data
        ∧ files w' !! data_path
            (clean_filename (final_title title title_search title_replace) +:+ "-image.txt")
          = files w !! data_path
              (clean_filename (final_title title title_search title_replace) +:+ "-image.txt").
Proof.
  intros E Ht Hb Hpng Hdata.
  destruct (get_page_content_with_rule_world url title_search rule w) as (Hf & _ & Hr).
  rewrite E in Hf, Hr. cbn [snd] in Hf, Hr.
  rewrite (crawl_page_with_rule_unfold _ _ _ _ _ _ _ _ _ _ E).
  cbn [PyStr.truthy_opt default]. rewrite (truthy_ne _ Ht), (truthy_ne _ Hb). cbn [andb].
  destruct (persist_page_effect url log_dir title_search title_replace title body og w1)
    as (w' & Ep & Ff & Rr).
  cbv zeta in Ff, Rr.
  set (filename := clean_filename (final_title title title_search title_replace)) in *.
  destruct (artifact_paths (final_title title title_search title_replace) log_dir)
    as (Htu & Hts & Hus & Htp & Hup & Hst & Hsu & Hsp & Hss).
  fold filename in Htu, Hts, Hus, Htp, Hup, Hst, Hsu, Hsp, Hss.
  rewrite !image_stored_other in Ff, Rr by done.
  rewrite Hf, (image_stored_lookup _ _ _ Hpng Hdata) in Ff, Rr.
  cbn [negb] in Ff, Rr. rewrite andb_false_r in Ff, Rr.
  exists w'. split; [exact Ep|]. split; [by rewrite Rr, Hr, app_nil_r|].
  rewrite Ff. split.
  - by rewrite !lookup_insert_ne.
  - by rewrite !lookup_insert_ne.
Qed.

(** X6.  Once a non-empty image file is stored under a file name, a
    later successful crawl that arrives at the same file name leaves the
    image and its sidecar as they are and asks for no image, whatever
    image the page now names. *)
Theorem stored_image_is_kept
    (url log_dir title_search title_replace rule title body data : string)
    (og : option string) (w w1 : World) :
  get_page_content_with_rule url title_search rule w
  = (Ret (Some title, Some body, og), w1) →
  title ≠ EmptyString →
  body ≠ EmptyString →
  files w !! data_path
    (clean_filename (final_title title title_search title_replace) +:+ ".png")
  = Some data →
  data ≠ EmptyString →
  ∃ w', crawl_page_with_rule url log_dir title_search title_replace rule w = (Ret tt, w')
        ∧ requests w' = requests w ++ [url]
        ∧ files w' !! data_path
            (clean_filename (final_title title title_search title_replace) +:+ ".png")
          = Some data
        ∧ files w' !! data_path
            (clean_filename (final_title title title_search title_replace) +:+ "-image.txt")
          = files w !! data_path
              (clean_filename (final_title title title_search title_replace) +:+ "-image.txt").
Proof. apply crawl_keeps_stored_image. Qed.

(** X7.  Crawling a page twice: when the first crawl downloads the image
    (status 200, some bytes), the second crawl asks for the page only and
    the stored image is the one of the first crawl. *)
Theorem second_crawl_skips_image
    (url log_dir title_search title_replace rule title body c : string)
    (response answer : Response) (w : World) :
  http url = HttpOk response →
  status_code response = 200%Z →
  extract_page (soup_of_content response) rule = Ret (title, body, Some c) →
  title ≠ EmptyString →
  body ≠ EmptyString →
  c ≠ EmptyString →
  image_stored (clean_filename (final_title title title_search title_replace)) (files w)
  = false →
  http (urljoin url c) = HttpOk answer →
  status_code answer = 200%Z →
  content answer ≠ EmptyString →
  ∃ w1 w2,
    crawl_page_with_rule url log_dir title_search title_replace rule w = (Ret tt, w1)
    ∧ crawl_page_with_rule url log_dir title_search title_replace rule w1 = (Ret tt, w2)
    ∧ requests w1 = requests w ++ [url; urljoin url c]
    ∧ requests w2 = requests w1 ++ [url]
    ∧ files w2 !! data_path
        (clean_filename (final_title title title_search title_replace) +:+ ".png")
      = Some (content answer)
    ∧ files w2 !! data_path
        (clean_filename (final_title title title_search title_replace) +:+ "-image.txt")
      = Some (urljoin url c).
Proof.
  intros Hhttp Hstatus Hextract Ht Hb Hc Hstored Ha Has Hbytes.
  pose proof (get_page_content_with_rule_ok url title_search rule title body (Some c)
                response w Hhttp Hstatus Hextract) as E.
  (* the first crawl *)
  pose proof (crawl_page_with_rule_unfold url log_dir title_search title_replace rule
                _ _ _ _ _ E) as U.
  cbn [PyStr.truthy_opt default] in U.
  rewrite (truthy_ne _ Ht), (truthy_ne _ Hb) in U. cbn [andb] in U.
  destruct (persist_page_effect url log_dir title_search title_replace title body (Some c)
              {| files := files w; dirs := dirs w; stdout := stdout w;
                 requests := requests w ++ [url] |}) as (w1 & Ep & Ff & Rr).
  cbv zeta in Ff, Rr.
  change (default EmptyString (Some c)) with c in Ff, Rr.
  cbn [files requests PyStr.truthy_opt] in Ff, Rr.
  set (filename := clean_filename (final_title title title_search title_replace)) in *.
  destruct (artifact_paths (final_title title title_search title_replace) log_dir)
    as (Htu & Hts & Hus & Htp & Hup & Hst & Hsu & Hsp & Hss).
  fold filename in Htu, Hts, Hus, Htp, Hup, Hst, Hsu, Hsp, Hss.
  pose proof (png_ne_sidecar filename) as Hps.
  rewrite !image_stored_other in Ff, Rr by done.
  rewrite Hstored, (truthy_ne _ Hc) in Ff, Rr. cbn [negb andb] in Ff, Rr.
  unfold downloaded in Ff. rewrite Ha, Has in Ff. cbn [Z.eqb] in Ff.
  rewrite Pos.eqb_refl in Ff.
  assert (Hpng1 : files w1 !! data_path (filename +:+ ".png") = Some (content answer)).
  { rewrite Ff. rewrite !lookup_insert_ne by done. apply lookup_insert_eq. }
  assert (Hside1 : files w1 !! data_path (filename +:+ "-image.txt") = Some (urljoin url c)).
  { rewrite Ff. rewrite lookup_insert_ne by done. apply lookup_insert_eq. }
  (* the second crawl *)
  pose proof (get_page_content_with_rule_ok url title_search rule title body (Some c)
                response w1 Hhttp Hstatus Hextract) as E2.
  destruct (crawl_keeps_stored_image url log_dir title_search title_replace rule title body
              (content answer) (Some c) w1 _ E2 Ht Hb Hpng1 Hbytes)
    as (w2 & C2 & R2 & P2 & S2).
  fold filename in P2, S2.
  exists w1, w2. rewrite U. split; [exact Ep|]. split; [exact C2|].
  split; [by rewrite Rr, <- app_assoc|]. split; [exact R2|].
  split; [exact P2 | by rewrite S2].
Qed.

End StoredImages.

(** ** Executions of the dispatch loop *)

Module LedgerFacts.
Import Orchestrator Ledger.

Section Steps.
Context {pf : Platform}.
Variables (max_threads : nat) (title_search title_replace : string).

Local Abbreviation step := (step title_search title_replace).
Local Abbreviation run := (run title_search title_replace).
Local Abbreviation invariant := (invariant max_threads).
Local Abbreviation unfinished := (fun t : thread => negb (finished t)).

Lemma running_app_new (l : list thread) (url : string) :
  length (List.filter unfinished (l ++ [new_thread url]))
  = S (length (List.filter unfinished l)).
Proof.
  induction l as [|t l IH]; [reflexivity|].
  cbn [app List.filter]. destruct (negb (finished t)); cbn [length]; by rewrite IH.
Qed.

Lemma running_finish (l : list thread) (i : nat) (t : thread) :
  l !! i = Some t → finished t = false →
  S (length (List.filter unfinished (<[ i := finish t ]> l)))
  = length (List.filter unfinished l).
Proof.
  revert i. induction l as [|t0 l IH]; intros [|i] E F; try done.
  - injection E as ->. cbn. by rewrite F.
  - simpl in E. specialize (IH i E F). simpl.
    destruct (negb (finished t0)); simpl; lia.
Qed.

Lemma length_iterations (urls : list string) :
  length (flat_map iteration urls) = 4 * length urls.
Proof. induction urls as [|u urls IH]; [done|]. cbn [flat_map length app iteration]. lia. Qed.

(** Every step uses up one unit of the budget. *)
Lemma step_budget (urls : list string) (a : actor) (s s' : state) (e : event)
    (past : list event) :
  invariant urls s past → step a s = Some (e, s') →
  budget (length urls) s = S (budget (length urls) s').
Proof.
  intros (_ & Hurls & Hpc) Hstep. destruct a as [|i].
  - cbn [Orchestrator.step] in Hstep. unfold dispatcher_step in Hstep.
    unfold budget, remaining, in_hand, running in *.
    destruct (at_pc s) eqn:Epc.
    + destruct (pending s) as [|url rest] eqn:Ep; [done|].
      destruct (semaphore s) as [|n] eqn:Es; [done|].
      injection Hstep as <- <-. cbn. rewrite !length_app. cbn. lia.
    + injection Hstep as <- <-. cbn. rewrite running_app_new. lia.
    + injection Hstep as <- <-. cbn. lia.
    + injection Hstep as <- <-. cbn.
      destruct (pending s) as [|url rest] eqn:Ep; cbn; [|lia].
      rewrite Nat.sub_0_r. lia.
    + destruct Hpc as (_ & Hp & Hi & _). rewrite Hp in Hurls. cbn in Hurls.
      rewrite app_nil_r in Hurls.
      assert (Hlen : length (threads s) = length urls) by (by rewrite <- Hurls, length_map).
      destruct (threads s !! i) as [t|] eqn:Et.
      * destruct (finished t); [|done]. injection Hstep as <- <-. cbn.
        apply lookup_lt_Some in Et.
        replace (length urls - i) with (S (length urls - S i)) by lia.
        cbn. rewrite !length_app. cbn. lia.
      * injection Hstep as <- <-. cbn. apply lookup_ge_None in Et.
        replace (length urls - i) with 0 by lia. cbn. lia.
    + done.
  - destruct (OrchestratorFacts.worker_step_frame _ _ _ _ _ _ Hstep)
      as (-> & Hpc' & Hp' & Hs' & t & Et & Ft & Hth).
    unfold budget, remaining, in_hand, running.
    rewrite Hpc', Hp', Hth. rewrite <- (running_finish _ _ _ Et Ft). lia.
Qed.

Lemma run_budget (urls : list string) (schedule : list actor) (s s' : state)
    (past trace : list event) :
  invariant urls s past → run schedule s = Some (trace, s') →
  budget (length urls) s = length schedule + budget (length urls) s'.
Proof.
  revert s past trace. induction schedule as [|a schedule IH]; intros s past trace Hinv Hrun.
  - by injection Hrun as <- <-.
  - cbn [Orchestrator.run] in Hrun.
    destruct (step a s) as [[e s1]|] eqn:Es; [|done].
    destruct (run schedule s1) as [[tr s2]|] eqn:Er; [|done].
    injection Hrun as <- <-.
    rewrite (step_budget _ _ _ _ _ _ Hinv Es).
    rewrite (IH _ _ _ (OrchestratorFacts.step_invariant _ _ _ _ _ _ _ _ _ Hinv Es) Er).
    cbn [length]. lia.
Qed.

Lemma budget_initial (urls : list string) (w : World) :
  budget (length urls) (initial max_threads urls w) = 6 * length urls + 1.
Proof.
  unfold budget, remaining, in_hand, running, initial. cbn.
  destruct urls as [|u urls]; [reflexivity|].
  cbn [loop_head]. rewrite !length_app, length_iterations, length_map, length_seq.
  cbn [length]. lia.
Qed.

Lemma budget_returned (urls : list string) (s : state) (past : list event) :
  invariant urls s past → at_pc s = Returned → budget (length urls) s = 0.
Proof.
  intros (_ & _ & Hpc) Epc. rewrite Epc in Hpc. destruct Hpc as (_ & Hp & Hfin).
  unfold budget, remaining, in_hand, running. rewrite Epc, Hp. cbn.
  assert (List.filter unfinished (threads s) = []) as ->; [|done].
  assert (∀ t, t ∈ threads s → finished t = true) as Hall.
  { intros t [j Hj]%list_elem_of_lookup. eauto. }
  clear Hfin. revert Hall. generalize (threads s). intros l.
  induction l as [|t l IH]; intros Hall; [done|].
  cbn. rewrite (Hall t) by left. cbn. apply IH. intros t' Ht'. apply Hall. by right.
Qed.

(** With a unit in the semaphore, some actor can move as long as the
    dispatcher has not returned. *)
Lemma progress (urls : list string) (s : state) (past : list event) :
  1 ≤ max_threads → invariant urls s past → at_pc s ≠ Returned →
  ∃ a e s', step a s = Some (e, s').
Proof.
  intros Hm (_ & _ & Hpc) Hnot.
  destruct (at_pc s) eqn:Epc; try done.
  - destruct Hpc as [Hs Hp]. exists Dispatcher. cbn. unfold dispatcher_step. rewrite Epc.
    destruct (pending s); [done|]. destruct (semaphore s); [lia|]. eauto.
  - exists Dispatcher. cbn. unfold dispatcher_step. rewrite Epc. eauto.
  - exists Dispatcher. cbn. unfold dispatcher_step. rewrite Epc. eauto.
  - exists Dispatcher. cbn. unfold dispatcher_step. rewrite Epc. eauto.
  - destruct (threads s !! i) as [t|] eqn:Et.
    + destruct (finished t) eqn:Ft.
      * exists Dispatcher. cbn. unfold dispatcher_step. rewrite Epc, Et, Ft. eauto.
      * exists (Worker i). cbn. unfold worker_step. rewrite Et, Ft. eauto.
    + exists Dispatcher. cbn. unfold dispatcher_step. rewrite Epc, Et. eauto.
Qed.

Lemma returned_or_not (p : pc) : p = Returned ∨ p ≠ Returned.
Proof. destruct p; (by left) || (by right). Qed.

Lemma run_to_return (urls : list string) (k : nat) (s : state) (past : list event) :
  1 ≤ max_threads → invariant urls s past → budget (length urls) s ≤ k →
  ∃ schedule trace s', run schedule s = Some (trace, s') ∧ at_pc s' = Returned.
Proof.
  intros Hm. revert s past. induction k as [|k IH]; intros s past Hinv Hk.
  - destruct (returned_or_not (at_pc s)) as [E|E].
    + by exists [], [], s.
    + destruct (progress urls s past Hm Hinv E) as (a & e & s' & Hstep).
      pose proof (step_budget _ _ _ _ _ _ Hinv Hstep). lia.
  - destruct (returned_or_not (at_pc s)) as [E|E].
    + by exists [], [], s.
    + destruct (progress urls s past Hm Hinv E) as (a & e & s1 & Hstep).
      pose proof (step_budget _ _ _ _ _ _ Hinv Hstep) as Hb.
      destruct (IH s1 _ (OrchestratorFacts.step_invariant _ _ _ _ _ _ _ _ _ Hinv Hstep))
        as (schedule & trace & s' & Hrun & Hret); [lia|].
      exists (a :: schedule), (e :: trace), s'. split; [|exact Hret].
      cbn [Orchestrator.run]. by rewrite Hstep, Hrun.
Qed.

End Steps.

Section FailedRuns.
Context {pf : Platform}.
Variables (max_threads : nat) (title_search title_replace : string).

Local Abbreviation step := (step title_search title_replace).
Local Abbreviation run := (run title_search title_replace).
Local Abbreviation invariant := (invariant max_threads).

Lemma fails_lines_snoc (done : list string) (url : string) :
  fails_lines (done ++ [url]) = fails_lines done +:+ url +:+ Os.NL.
Proof.
  induction done as [|u done IH]; cbn [fails_lines foldr app].
  - by rewrite app_nil_r_s.
  - fold (fails_lines (done ++ [url])). fold (fails_lines done).
    rewrite IH. by rewrite !app_assoc_s.
Qed.

Lemma finished_indices_app (t1 t2 : list event) :
  finished_indices (t1 ++ t2) = finished_indices t1 ++ finished_indices t2.
Proof. apply omap_app. Qed.

Lemma thread_url (urls : list string) (s : state) (past : list event) (i : nat) (t : thread) :
  invariant urls s past → threads s !! i = Some t → urls !! i = Some (target_url t).
Proof.
  intros (_ & Hurls & _) Et. rewrite <- Hurls.
  apply lookup_app_l_Some. change (map target_url) with (fmap (M:=list) target_url).
  by rewrite list_lookup_fmap, Et.
Qed.

Lemma step_ledger (urls : list string) (w : World) (a : actor) (s s' : state) (e : event)
    (past : list event) (fin : list nat) (done : list string) :
  (∀ url, url ∈ urls → fetch_fails (http url)) →
  invariant urls s past → ledger urls w s fin done → step a s = Some (e, s') →
  ∃ done', ledger urls w s' (fin ++ finished_indices [e]) done'.
Proof.
  intros Hfail Hinv (Hdone & Hnodup & Hfin & Hother & Hfails & Hreq) Hstep.
  destruct a as [|i].
  - (* the dispatcher: the world stays, a new thread has not finished *)
    assert (finished_indices [e] = [] ∧ world s' = world s
            ∧ (threads s' = threads s ∨ ∃ url, threads s' = threads s ++ [new_thread url]))
      as (-> & Hw & Hth).
    { cbn [Orchestrator.step] in Hstep. unfold dispatcher_step in Hstep.
      destruct (at_pc s).
      - destruct (pending s); [done|]. destruct (semaphore s); [done|].
        injection Hstep as <- <-. cbn. eauto.
      - injection Hstep as <- <-. cbn. eauto.
      - injection Hstep as <- <-. cbn. eauto.
      - injection Hstep as <- <-. cbn. eauto.
      - destruct (threads s !! i) as [t|]; [destruct (finished t); [|done]|];
          injection Hstep as <- <-; cbn; eauto.
      - done. }
    exists done. rewrite app_nil_r. unfold ledger. rewrite Hw.
    repeat split; try done.
    + intros Hi. apply Hfin in Hi as (t & Et & Ft). exists t. split; [|done].
      destruct Hth as [-> | [url ->]]; [done | by apply lookup_app_l_Some].
    + intros (t & Et & Ft). apply Hfin. exists t. split; [|done].
      destruct Hth as [Hth | [url Hth]]; rewrite Hth in Et; [done|].
      apply lookup_snoc_Some in Et as [[_ Et] | [_ <-]]; [done | discriminate Ft].
  - (* a worker: its url fails and goes to fails.txt *)
    cbn [Orchestrator.step] in Hstep. unfold worker_step in Hstep.
    destruct (threads s !! i) as [t|] eqn:Et; [|done].
    destruct (finished t) eqn:Ft; [done|].
    injection Hstep as <- <-. change (finished_indices [EvFinish i]) with [i].
    pose proof (thread_url urls s past i t Hinv Et) as Hu.
    assert (Hf : fetch_fails (http (target_url t))).
    { apply Hfail. apply list_elem_of_lookup. eauto. }
    destruct (failed_fetch_effect (target_url t) log_directory title_search title_replace
                (target_rule t) (world s) Hf) as (w' & E & Ff & Rr).
    exists (done ++ [target_url t]). unfold ledger. cbn [threads world]. rewrite E. cbn [snd].
    split; [|split; [|split; [|split; [|split]]]].
    + apply Forall2_app; [done|]. by constructor.
    + apply NoDup_app. split; [done|]. split; [|apply NoDup_singleton].
      intros j Hj ->%list_elem_of_singleton.
      apply Hfin in Hj as (t' & Et' & Ft'). congruence.
    + intros j. rewrite elem_of_app, list_elem_of_singleton. split.
      * intros [Hj | ->].
        -- apply Hfin in Hj as (t' & Et' & Ft'). exists t'. split; [|done].
           rewrite list_lookup_insert_ne; [done|]. intros ->. congruence.
        -- exists (finish t). split; [|done].
           apply list_lookup_insert_eq. by eapply lookup_lt_Some.
      * intros (t' & Et' & Ft'). destruct (decide (j = i)) as [->|Hne]; [by right|].
        left. apply Hfin. exists t'. by rewrite list_lookup_insert_ne in Et'.
    + intros p Hp. rewrite Ff, lookup_insert_ne by done. by apply Hother.
    + rewrite Ff, lookup_insert_eq. cbn [default]. rewrite Hfails.
      rewrite fails_lines_snoc. by rewrite !app_assoc_s.
    + rewrite Rr, Hreq. by rewrite app_assoc.
Qed.

Lemma run_ledger (urls : list string) (w : World) (schedule : list actor) (s s' : state)
    (past trace : list event) (fin : list nat) (done : list string) :
  (∀ url, url ∈ urls → fetch_fails (http url)) →
  invariant urls s past → ledger urls w s fin done → run schedule s = Some (trace, s') →
  ∃ done', ledger urls w s' (fin ++ finished_indices trace) done'.
Proof.
  intros Hfail. revert s past trace fin done.
  induction schedule as [|a schedule IH]; intros s past trace fin done Hinv Hl Hrun.
  - injection Hrun as <- <-. exists done. by rewrite app_nil_r.
  - cbn [Orchestrator.run] in Hrun.
    destruct (step a s) as [[e s1]|] eqn:Es; [|done].
    destruct (run schedule s1) as [[tr s2]|] eqn:Er; [|done].
    injection Hrun as <- <-.
    destruct (step_ledger urls w a s s1 e past fin done Hfail Hinv Hl Es) as [done1 Hl1].
    change (e :: tr) with ([e] ++ tr). rewrite finished_indices_app, app_assoc.
    eapply IH; [|exact Hl1|exact Er].
    by eapply OrchestratorFacts.step_invariant.
Qed.

Lemma initial_ledger (urls : list string) (w : World) :
  ledger urls w (initial max_threads urls w) [] [].
Proof.
  unfold ledger, initial. cbn [threads world].
  assert (files (ensure_directory (Os.path_join script_path ["data"]) w).2 = files w
          ∧ requests (ensure_directory (Os.path_join script_path ["data"]) w).2 = requests w)
    as [-> ->].
  { unfold ensure_directory, bind, Os.path_exists, Os.makedirs, ret. cbv beta iota.
    by destruct (negb _). }
  split; [constructor|]. split; [constructor|]. split.
  { intros i. split; [by intros ?%elem_of_nil | by intros (? & ? & ?)]. }
  split; [done|]. split; [by rewrite app_nil_r_s | by rewrite app_nil_r].
Qed.

Lemma done_of_indices (urls : list string) (fin : list nat) (done : list string) :
  Forall2 (λ i url, urls !! i = Some url) fin done →
  done = (λ i, default EmptyString (urls !! i)) <$> fin.
Proof. induction 1 as [|i u fin done Hi _ IH]; [done|]. cbn. by rewrite Hi, IH. Qed.

Lemma urls_of_all_indices (urls : list string) :
  (λ i, default EmptyString (urls !! i)) <$> seq 0 (length urls) = urls.
Proof.
  apply list_eq. intros i. rewrite list_lookup_fmap.
  destruct (decide (i < length urls)) as [Hlt|Hge].
  - rewrite lookup_seq_lt by done. cbn.
    destruct (lookup_lt_is_Some_2 urls i Hlt) as [u ->]. done.
  - rewrite lookup_seq_ge by lia. cbn. symmetry. apply lookup_ge_None. lia.
Qed.

End FailedRuns.




End LedgerFacts.

(** ** The configuration files *)

Lemma split_nonempty (sep : ascii) (s : string) : Text.split sep s ≠ [].
Proof.
  induction s as [|c s IH]; [done|].
  cbn [Text.split]. destruct (Ascii.eqb c sep); [done|].
  by destruct (Text.split sep s).
Qed.

Lemma split_at_first (sep : ascii) (key rest : string) :
  PyStr.mem sep key = false →
  Text.split sep (key +:+ String sep rest) = key :: Text.split sep rest.
Proof.
  induction key as [|c key IH]; intros Hk.
  - rewrite app_nil_l_s. cbn [Text.split]. by rewrite Ascii.eqb_refl.
  - cbn [PyStr.mem] in Hk. apply orb_false_elim in Hk as [Hc Hk].
    rewrite app_cons_s. cbn [Text.split]. rewrite Ascii.eqb_sym, Hc.
    by rewrite (IH Hk).
Qed.

(** The parts of a split hold no separator. *)
Lemma split_parts (sep : ascii) (s : string) :
  Forall (λ part, PyStr.mem sep part = false) (Text.split sep s).
Proof.
  induction s as [|c s IH]; [by repeat constructor|].
  cbn [Text.split]. destruct (Ascii.eqb c sep) eqn:E; [by constructor|].
  destruct (Text.split sep s) as [|part parts].
  { constructor; [|constructor]. cbn. by rewrite Ascii.eqb_sym, E. }
  inversion IH as [|? ? Hp Hps]; subst. constructor; [|done].
  cbn [PyStr.mem]. by rewrite Ascii.eqb_sym, E, Hp.
Qed.

Lemma mem_lstrip (c : ascii) (s : string) :
  PyStr.mem c s = false → PyStr.mem c (PyStr.lstrip s) = false.
Proof.
  induction s as [|a s IH]; [done|]. intros H.
  cbn [PyStr.lstrip]. destruct (PyStr.isspace a); [|exact H].
  apply IH. cbn [PyStr.mem] in H. by apply orb_false_elim in H as [_ H].
Qed.

Lemma mem_rstrip (c : ascii) (s : string) :
  PyStr.mem c s = false → PyStr.mem c (PyStr.rstrip s) = false.
Proof.
  induction s as [|a s IH]; [done|]. cbn [PyStr.mem]. intros H.
  apply orb_false_elim in H as [Ha Hs]. specialize (IH Hs).
  rewrite rstrip_cons. destruct (PyStr.rstrip s).
  - destruct (PyStr.isspace a); [done|]. cbn. by rewrite Ha.
  - cbn [PyStr.mem]. cbn [PyStr.mem] in IH. by rewrite Ha, IH.
Qed.

Lemma mem_strip (c : ascii) (s : string) :
  PyStr.mem c s = false → PyStr.mem c (PyStr.strip s) = false.
Proof. intros H. by apply mem_rstrip, mem_lstrip. Qed.

Section ConfigFiles.
Context {pf : Platform}.

Lemma value_of_prefixed (key rest : string) :
  PyStr.mem "=" key = false →
  Config.value_of (key +:+ String "=" rest)
  = inr (hd EmptyString (Text.split "=" rest)).
Proof.
  intros Hk. unfold Config.value_of. rewrite (split_at_first _ _ _ Hk).
  pose proof (split_nonempty "=" rest). by destruct (Text.split "=" rest).
Qed.

Lemma delay_of_lines_first (before after : list string) (line : string) :
  Forall (λ l, PyStr.startswith "delay=" l = false) before →
  PyStr.startswith "delay=" line = true →
  Config.delay_of_lines (before ++ line :: after) = Config.int_value_of line.
Proof.
  intros Hb Hl. induction Hb as [|l before Hn _ IH].
  - change (Config.delay_of_lines ([] ++ line :: after))
      with (if PyStr.startswith "delay=" line then Config.int_value_of line
            else Config.delay_of_lines after).
    by rewrite Hl.
  - change (Config.delay_of_lines ((l :: before) ++ line :: after))
      with (if PyStr.startswith "delay=" l then Config.int_value_of l
            else Config.delay_of_lines (before ++ line :: after)).
    by rewrite Hn.
Qed.

Lemma delay_of_lines_none (lines : list string) :
  Forall (λ l, PyStr.startswith "delay=" l = false) lines →
  Config.delay_of_lines lines = inr 0%Z.
Proof.
  induction 1 as [|l lines Hn _ IH]; [done|].
  change (Config.delay_of_lines (l :: lines))
    with (if PyStr.startswith "delay=" l then Config.int_value_of l
          else Config.delay_of_lines lines).
  by rewrite Hn.
Qed.

Lemma body_class_of_lines_none (lines : list string) :
  Forall (λ l, PyStr.startswith "body_class=" l = false) lines →
  Config.body_class_of_lines lines = inr EmptyString.
Proof.
  induction 1 as [|l lines Hn _ IH]; [done|].
  change (Config.body_class_of_lines (l :: lines))
    with (if PyStr.startswith "body_class=" l then Config.stripped_value_of l
          else Config.body_class_of_lines lines).
  by rewrite Hn.
Qed.

Lemma read_existing (path data : string) (w : World) :
  files w !! path = Some data →
  Config.path_exists path w = true
  ∧ Config.read_text path w = inr (Text.universal_newlines data).
Proof.
  intros E. unfold Config.path_exists, Config.read_text. rewrite E.
  by rewrite bool_decide_true by eauto.
Qed.

(** X11.  A host without a configuration file, or with one that has no
    line starting with the key, gets the defaults: a delay of 0 and the
    empty rule. *)
Theorem host_defaults (hostname : string) (w : World) :
  (Config.path_exists (Config.config_file hostname) w = false
   ∨ ∃ data, files w !! Config.config_file hostname = Some data
             ∧ Forall (λ l, PyStr.startswith "delay=" l = false
                            ∧ PyStr.startswith "body_class=" l = false)
                 (Text.readlines (Text.universal_newlines data))) →
  Config.get_delay hostname w = inr 0%Z
  ∧ Config.get_body_class hostname w = inr EmptyString.
Proof.
  unfold Config.get_delay, Config.get_body_class.
  intros [-> | (data & E & Hlines)]; [done|].
  destruct (read_existing _ _ _ E) as [-> ->].
  split.
  - apply delay_of_lines_none. eapply Forall_impl; [exact Hlines|]. by intros l [? ?].
  - apply body_class_of_lines_none. eapply Forall_impl; [exact Hlines|]. by intros l [? ?].
Qed.


Lemma stripped_value_shape (line rule : string) :
  Config.stripped_value_of line = inr rule →
  PyStr.mem "=" rule = false ∧ PyStr.strip rule = rule.
Proof.
  unfold Config.stripped_value_of, Config.value_of.
  destruct (Text.split "=" line !! 1) as [value|] eqn:E; [|done].
  intros [= <-]. split; [|apply strip_strip].
  apply mem_strip.
  pose proof (split_parts "=" line) as Hparts.
  rewrite Forall_lookup in Hparts. by apply (Hparts 1).
Qed.

(** X13.  The rule [get_body_class] returns never holds an [=] and
    never starts or ends with whitespace: the value is cut at the second
    [=] of its line and stripped. *)
Theorem body_class_shape (hostname rule : string) (w : World) :
  Config.get_body_class hostname w = inr rule →
  PyStr.mem "=" rule = false ∧ PyStr.strip rule = rule.
Proof.
  unfold Config.get_body_class.
  destruct (Config.path_exists _ w); [|by intros [= <-]].
  destruct (Config.read_text _ w) as [e|text]; [done|].
  induction (Text.readlines text) as [|line lines IH]; [by intros [= <-]|].
  cbn [Config.body_class_of_lines].
  destruct (PyStr.startswith "body_class=" line); [apply stripped_value_shape | exact IH].
Qed.

End ConfigFiles.

(** ** The script's entry *)

Lemma splitlines_clean_bounded (n : nat) (s : string) :
  String.length s ≤ n →
  Forall (λ line, ∀ c, Text.line_boundary c = true → PyStr.mem c line = false)
    (Text.splitlines s).
Proof.
  revert s. induction n as [|n IH]; intros [|a s] Hlen; cbn in Hlen; try lia;
    try by constructor.
  cbn [Text.splitlines]. destruct (Text.line_boundary a) eqn:Ea.
  - destruct s as [|a' s']; [by repeat constructor|].
    destruct (Ascii.eqb a PyStr.CR && Ascii.eqb a' PyStr.LF).
    + constructor; [done|]. apply IH. cbn in Hlen. lia.
    + constructor; [done|]. apply IH. lia.
  - assert (Hs : Forall (λ line, ∀ c, Text.line_boundary c = true → PyStr.mem c line = false)
                   (Text.splitlines s)) by (apply IH; lia).
    assert (Ha : ∀ c, Text.line_boundary c = true → Ascii.eqb c a = false).
    { intros c Hc. destruct (Ascii.eqb_spec c a) as [->|]; [congruence | done]. }
    destruct (Text.splitlines s) as [|line rest].
    + constructor; [|constructor]. intros c Hc. cbn. by rewrite (Ha c Hc).
    + inversion Hs as [|? ? Hl Hr]; subst. constructor; [|done].
      intros c Hc. cbn [PyStr.mem]. by rewrite (Ha c Hc), (Hl c Hc).
Qed.

Section Entry.
Context {pf : Platform}.

Lemma read_urls_clean (text : string) :
  Forall (λ url, url ≠ EmptyString ∧ PyStr.strip url = url
                 ∧ ∀ c, Text.line_boundary c = true → PyStr.mem c url = false)
    (Main.read_urls text).
Proof.
  unfold Main.read_urls.
  pose proof (splitlines_clean_bounded _ text (le_n _)) as Hlines.
  induction Hlines as [|line lines Hl _ IH]; [constructor|].
  cbn [List.filter]. destruct (PyStr.truthy (PyStr.strip line)) eqn:E; [|exact IH].
  cbn [map]. constructor; [|exact IH].
  split; [by intros Heq; rewrite Heq in E|]. split; [apply strip_strip|].
  intros c Hc. by apply mem_strip, Hl.
Qed.

Lemma read_settings_replace (lines : list string) (st st' : Main.settings) (value : string) :
  Main.read_settings lines st = inr st' →
  Main.title_replace st' = Some value →
  Main.title_replace st = None →
  ∃ line, line ∈ lines ∧ PyStr.startswith "title_replace=" line = true.
Proof.
  revert st. induction lines as [|line lines IH]; intros st Hread Hsome Hnone.
  - injection Hread as <-. congruence.
  - change (Main.read_settings (line :: lines) st) with
      (if PyStr.startswith "max_threads=" line then
         match Config.int_value_of line with
         | inl e => inl e
         | inr n =>
             Main.read_settings lines
               {| Main.max_threads := n; Main.title_search := Main.title_search st;
                  Main.title_replace := Main.title_replace st |}
         end
       else if PyStr.startswith "title_search=" line then
         match Config.stripped_value_of line with
         | inl e => inl e
         | inr v =>
             Main.read_settings lines
               {| Main.max_threads := Main.max_threads st; Main.title_search := v;
                  Main.title_replace := Main.title_replace st |}
         end
       else if PyStr.startswith "title_replace=" line then
         match Config.stripped_value_of line with
         | inl e => inl e
         | inr v =>
             Main.read_settings lines
               {| Main.max_threads := Main.max_threads st;
                  Main.title_search := Main.title_search st;
                  Main.title_replace := Some v |}
         end
       else Main.read_settings lines st) in Hread.
    destruct (PyStr.startswith "max_threads=" line).
    { destruct (Config.int_value_of line) as [e|n]; [done|].
      destruct (IH _ Hread Hsome Hnone) as (l & Hl & Hp). exists l. split; [by right | done]. }
    destruct (PyStr.startswith "title_search=" line).
    { destruct (Config.stripped_value_of line) as [e|v]; [done|].
      destruct (IH _ Hread Hsome Hnone) as (l & Hl & Hp). exists l. split; [by right | done]. }
    destruct (PyStr.startswith "title_replace=" line) eqn:E.
    { exists line. split; [by left | done]. }
    destruct (IH _ Hread Hsome Hnone) as (l & Hl & Hp). exists l. split; [by right | done].
Qed.

(** X14.  The script reaches [crawl_websites] only if the global
    configuration has a line that starts with [title_replace=]: nothing
    else binds that name.  In particular, with no global configuration
    file and a readable [urls.txt], the script ends in a [NameError] for
    [title_replace] before any url is fetched. *)
Theorem script_needs_title_replace (w : World) :
  (∀ urls n search replace,
     Main.main w = inr (urls, n, search, replace) →
     ∃ data line,
       files w !! Main.global_config_file = Some data
       ∧ line ∈ Text.readlines (Text.universal_newlines data)
       ∧ PyStr.startswith "title_replace=" line = true)
  ∧ (Config.path_exists Main.global_config_file w = false →
     ∀ data, files w !! Main.input_file = Some data →
             Main.main w = inl (NameError "title_replace")).
Proof.
  split.
  - intros urls n search replace. unfold Main.main, Main.load_settings.
    destruct (Config.path_exists Main.global_config_file w).
    + unfold Config.read_text at 1.
      destruct (files w !! Main.global_config_file) as [data|] eqn:E.
      * destruct (Main.read_settings _ Main.defaults) as [e|st] eqn:Hread; [done|].
        destruct (Config.read_text Main.input_file w) as [e|text]; [done|].
        destruct (Main.title_replace st) as [value|] eqn:Hv; [|done]. intros _.
        destruct (read_settings_replace _ _ _ _ Hread Hv eq_refl) as (line & Hl & Hp).
        by exists data, line.
      * by destruct (bool_decide _).
    + destruct (Config.read_text Main.input_file w) as [e|text]; done.
  - intros Hno data E. unfold Main.main, Main.load_settings. rewrite Hno.
    destruct (read_existing _ _ _ E) as [_ ->]. done.
Qed.

(** X15.  Every url the script passes to [crawl_websites] is non-empty,
    has no whitespace at either end, and holds no line end of any kind,
    a line feed in particular: so the line [log_failed_url] writes for it
    is one line. *)
Theorem script_urls_are_clean
    (w : World) (urls : list string) (n : Z) (search replace : string) :
  Main.main w = inr (urls, n, search, replace) →
  Forall (λ url, url ≠ EmptyString
                 ∧ PyStr.strip url = url
                 ∧ PyStr.mem PyStr.LF url = false
                 ∧ ∀ c, Text.line_boundary c = true → PyStr.mem c url = false) urls.
Proof.
  unfold Main.main.
  destruct (Main.load_settings w) as [e|st]; [done|].
  destruct (Config.read_text Main.input_file w) as [e|text]; [done|].
  destruct (Main.title_replace st); [|done]. intros [= <- _ _ _].
  eapply Forall_impl; [apply read_urls_clean|].
  intros url (Hne & Hs & Hb). repeat split; try done. by apply Hb.
Qed.

(** ** The logs *)

Lemma append_record_effect (log_directory name record : string) (w : World) :
  ∃ w', (ensure_directory log_directory ;;;
         Os.append_file (Os.path_join log_directory [name]) record) w = (Ret tt, w')
        ∧ files w'
          = <[ Os.path_join log_directory [name] :=
                 default EmptyString (files w !! Os.path_join log_directory [name])
                 +:+ record ]> (files w)
        ∧ requests w' = requests w
        ∧ stdout w' = stdout w
        ∧ (dirs w' = dirs w ∨ dirs w' = {[ log_directory ]} ∪ dirs w).
Proof.
  unfold ensure_directory, bind, Os.path_exists, Os.makedirs, Os.append_file, ret.
  cbv beta iota.
  destruct (negb _); cbv beta iota; eexists; (split; [reflexivity|]); cbn; eauto.
Qed.

Lemma appended_is_kept (path record old : string) (fs : gmap string string) (p : string) :
  fs !! p = Some old →
  ∃ added, <[ path := default EmptyString (fs !! path) +:+ record ]> fs !! p
           = Some (old +:+ added).
Proof.
  intros E. destruct (decide (path = p)) as [->|Hne].
  - rewrite lookup_insert_eq, E. by exists record.
  - rewrite lookup_insert_ne by done. exists EmptyString. by rewrite app_nil_r_s.
Qed.

(** X16.  The three loggers only ever append: after
    [log_successful_crawl], [log_failed_url] or [log_to_csv], every file
    that existed still exists and begins with what it held before, and
    no request was made. *)
Theorem loggers_only_append
    (url log_directory : string) (status_code : Z) (w : World) (p old : string) :
  files w !! p = Some old →
  (∃ w' added, log_successful_crawl url log_directory w = (Ret tt, w')
               ∧ files w' !! p = Some (old +:+ added) ∧ requests w' = requests w)
  ∧ (∃ w' added, log_failed_url url log_directory w = (Ret tt, w')
                 ∧ files w' !! p = Some (old +:+ added) ∧ requests w' = requests w)
  ∧ (∃ w' added, log_to_csv url status_code log_directory w = (Ret tt, w')
                 ∧ files w' !! p = Some (old +:+ added) ∧ requests w' = requests w).
Proof.
  intros E. split; [|split].
  - destruct (append_record_effect log_directory "successes.csv"
                (csv_row [url; "200"; strftime_now]) w) as (w' & Hrun & Hf & Hr & _).
    destruct (appended_is_kept (Os.path_join log_directory ["successes.csv"])
                (csv_row [url; "200"; strftime_now]) _ _ _ E)
      as [added Ha].
    exists w', added. split; [exact Hrun|]. rewrite Hf. split; [exact Ha | exact Hr].
  - destruct (append_record_effect log_directory "fails.txt" (url +:+ Os.NL) w)
      as (w' & Hrun & Hf & Hr & _).
    destruct (appended_is_kept (Os.path_join log_directory ["fails.txt"])
                (url +:+ Os.NL) _ _ _ E) as [added Ha].
    exists w', added. split; [exact Hrun|]. rewrite Hf. split; [exact Ha | exact Hr].
  - destruct (append_record_effect log_directory "logs.csv"
                (csv_row [url; Text.str status_code; strftime_now]) w)
      as (w' & Hrun & Hf & Hr & _).
    destruct (appended_is_kept (Os.path_join log_directory ["logs.csv"])
                (csv_row [url; Text.str status_code; strftime_now]) _ _ _ E)
      as [added Ha].
    exists w', added. split; [exact Hrun|]. rewrite Hf. split; [exact Ha | exact Hr].
Qed.

End Entry.

(** ** Scenarios for the further properties *)

Module FurtherScenarios.
Import Orchestrator Ledger Installation.

(** X3: the description whose content holds tags. *)
Lemma body_is_clean_witness :
  extract_page (pf := Demo.platform) Demo.page_description_markup EmptyString
  = Ret ("T", "a bold c", None)
  ∧ has_tag "a bold c" = false
  ∧ PyStr.strip "a bold c" = "a bold c"
  ∧ starts_clean "a bold c"
  ∧ ∀ c, PyStr.last "a bold c" = Some c → PyStr.isspace c = false.
Proof.
  split; [vm_compute; reflexivity|].
  apply (body_is_clean (pf := Demo.platform) Demo.page_description_markup EmptyString
           "T" "a bold c" None).
  vm_compute; reflexivity.
Defined.

(** X4: the rule [p] on a page whose description element has no
    [content]: without the rule extraction raises, with it the body is
    the paragraph. *)
Lemma rule_takes_precedence_witness :
  extract_page (pf := Demo.platform) Demo.page_description_without_content EmptyString
  = Raise (KeyError "content")
  ∧ extract_page (pf := Demo.platform) Demo.page_description_without_content "p"
    = Ret ("T", "B", None).
Proof.
  split; [vm_compute; reflexivity|].
  refine (rule_takes_precedence (pf := Demo.platform)
            Demo.page_description_without_content "p"
            [Demo.el "p" [] [Demo.text "B"]] _ _ _ _).
  - discriminate.
  - vm_compute; reflexivity.
  - vm_compute; discriminate.
  - vm_compute; discriminate.
Defined.

(** X6: page A names [/img.png], and an image is already stored under
    its title. *)
Lemma stored_image_is_kept_witness :
  ∃ w', crawl_page_with_rule (pf := Demo.platform)
          "https://example.com/a" Demo.logs EmptyString EmptyString EmptyString with_image
        = (Ret tt, w')
        ∧ requests w' = ["https://example.com/a"]
        ∧ files w' !! "/srv/crawler/data/Title A.png" = Some "OLD-BYTES"
        ∧ files w' !! "/srv/crawler/data/Title A-image.txt" = None.
Proof.
  refine (stored_image_is_kept (pf := Demo.platform)
            "https://example.com/a" Demo.logs EmptyString EmptyString EmptyString
            "Title A" "Body A" "OLD-BYTES" (Some "/img.png") with_image
            {| files := files with_image; dirs := ∅; stdout := [];
               requests := ["https://example.com/a"] |} _ _ _ _ _).
  - vm_compute; reflexivity.
  - discriminate.
  - discriminate.
  - vm_compute; reflexivity.
  - discriminate.
Defined.

(** X7: page A crawled twice on a fresh installation. *)
Lemma second_crawl_skips_image_witness :
  ∃ w1 w2,
    crawl_page_with_rule (pf := Demo.platform)
      "https://example.com/a" Demo.logs EmptyString EmptyString EmptyString Demo.fresh
    = (Ret tt, w1)
    ∧ crawl_page_with_rule (pf := Demo.platform)
        "https://example.com/a" Demo.logs EmptyString EmptyString EmptyString w1
      = (Ret tt, w2)
    ∧ requests w1 = ["https://example.com/a"; "https://example.com/img.png"]
    ∧ requests w2 = requests w1 ++ ["https://example.com/a"]
    ∧ files w2 !! "/srv/crawler/data/Title A.png" = Some "PNG-BYTES"
    ∧ files w2 !! "/srv/crawler/data/Title A-image.txt" = Some "https://example.com/img.png".
Proof.
  refine (second_crawl_skips_image (pf := Demo.platform)
            "https://example.com/a" Demo.logs EmptyString EmptyString EmptyString
            "Title A" "Body A" "/img.png"
            {| status_code := 200; response_url := "https://example.com/a";
               content := EmptyString; soup_of_content := Demo.page_a |}
            {| status_code := 200; response_url := "https://example.com/img.png";
               content := "PNG-BYTES";
               soup_of_content := Demo.document [Demo.text "PNG-BYTES"] |}
            Demo.fresh _ _ _ _ _ _ _ _ _ _).
  - vm_compute; reflexivity.
  - reflexivity.
  - vm_compute; reflexivity.
  - discriminate.
  - discriminate.
  - discriminate.
  - vm_compute; reflexivity.
  - vm_compute; reflexivity.
  - reflexivity.
  - discriminate.
Defined.




(** X11: a configuration file that sets neither key. *)
Lemma host_defaults_witness :
  Config.get_delay (pf := Demo.platform) "example.com" commented = inr 0%Z
  ∧ Config.get_body_class (pf := Demo.platform) "example.com" commented = inr EmptyString.
Proof.
  apply (host_defaults (pf := Demo.platform) "example.com" commented).
  right. exists ("# no settings" +:+ Os.NL). split; [vm_compute; reflexivity|].
  vm_compute. repeat constructor.
Defined.


(** X13: the rule of the host configuration, written with blanks. *)
Lemma body_class_shape_witness :
  Config.get_body_class (pf := Demo.platform) "example.com" configured = inr "p"
  ∧ PyStr.mem "=" "p" = false ∧ PyStr.strip "p" = "p".
Proof.
  split; [vm_compute; reflexivity|].
  apply (body_class_shape (pf := Demo.platform) "example.com" "p" configured).
  vm_compute; reflexivity.
Defined.

(** X14: the script on the configured installation, and on one whose
    global configuration lacks the [title_replace=] line. *)
Example script_with_and_without_title_replace :
  Main.main (pf := Demo.platform) configured
  = inr (["https://example.com/a"; "https://slow.example.com/"], 2%Z, "foo", "bar")
  ∧ Main.main (pf := Demo.platform)
      {| files :=
           <[ "/srv/crawler/config/global-engine-config.txt" :=
                "max_threads=2" +:+ Os.NL +:+ "title_search=foo" +:+ Os.NL ]>
             (<[ "/srv/crawler/urls.txt" := url_list ]> ∅);
         dirs := ∅; stdout := []; requests := [] |}
    = inl (NameError "title_replace").
Proof. split; vm_compute; reflexivity. Qed.

(** X15: the urls of the configured installation. *)
Lemma script_urls_are_clean_witness :
  Main.main (pf := Demo.platform) configured
  = inr (["https://example.com/a"; "https://slow.example.com/"], 2%Z, "foo", "bar")
  ∧ Forall (λ url, url ≠ EmptyString
                   ∧ PyStr.strip url = url
                   ∧ PyStr.mem PyStr.LF url = false
                   ∧ ∀ c, Text.line_boundary c = true → PyStr.mem c url = false)
      ["https://example.com/a"; "https://slow.example.com/"].
Proof.
  split; [vm_compute; reflexivity|].
  apply (script_urls_are_clean (pf := Demo.platform) configured
           ["https://example.com/a"; "https://slow.example.com/"] 2%Z "foo" "bar").
  vm_compute; reflexivity.
Defined.

(** X16: the stored image of an earlier run is a file none of the
    loggers writes to. *)
Lemma loggers_only_append_witness :
  files with_image !! "/srv/crawler/data/Title A.png" = Some "OLD-BYTES"
  ∧ ∃ w' added,
      log_failed_url "https://slow.example.com/" Demo.logs with_image
      = (Ret tt, w')
      ∧ files w' !! "/srv/crawler/data/Title A.png" = Some ("OLD-BYTES" +:+ added)
      ∧ requests w' = requests with_image.
Proof.
  split; [vm_compute; reflexivity|].
  refine (proj1 (proj2 (loggers_only_append (pf := Demo.platform)
                          "https://slow.example.com/" Demo.logs 404%Z with_image
                          "/srv/crawler/data/Title A.png" "OLD-BYTES" _))).
  vm_compute; reflexivity.
Defined.

End FurtherScenarios.
